(** * IndeedSiteScraper: the scraping pipeline of [scraper.py] and the
      location post-processing of [main.py], embedded in Rocq.

    Python [str] values are modelled as lists of characters, one [ascii]
    per code point, for text whose code points lie below 256.  Browser
    sessions are an abstract state with the observations the code makes
    of it; exceptions are explicit error results. *)

From Stdlib Require Import Ascii String Bool Arith ZArith Lia List.
From Stdlib Require Import Numbers.DecimalString.
From Equations Require Import Equations.
From Equations.Prop Require Import Logic.
Import ListNotations.

Open Scope string_scope.
Open Scope list_scope.
Open Scope nat_scope.

Set Implicit Arguments.
Set Warnings "-register-all,-abstract-large-number".

(** ** Text *)

Definition str := list ascii.

Definition of_string (s : string) : str := list_ascii_of_string s.
Coercion of_string : string >-> str.

Definition str_eqb (a b : str) : bool :=
  if list_eq_dec ascii_dec a b then true else false.

Module Py.

(** [str.isspace] on one code point below 256; it is also what the
    pattern [\s] accepts and what [strip] and [split] discard. *)
Definition isspace (c : ascii) : bool :=
  let n := nat_of_ascii c in
  ((9 <=? n) && (n <=? 13)) || ((28 <=? n) && (n <=? 32))
  || (n =? 133) || (n =? 160).

(** [str.lower] on one code point below 256. *)
Definition lower_char (c : ascii) : ascii :=
  let n := nat_of_ascii c in
  if ((65 <=? n) && (n <=? 90))
     || ((192 <=? n) && (n <=? 222) && negb (n =? 215))
  then ascii_of_nat (n + 32) else c.

Definition lower (s : str) : str := map lower_char s.

Fixpoint lstrip (s : str) : str :=
  match s with
  | c :: s' => if isspace c then lstrip s' else s
  | [] => []
  end.

Fixpoint rstrip (s : str) : str :=
  match s with
  | [] => []
  | c :: s' =>
      match rstrip s' with
      | [] => if isspace c then [] else [c]
      | r => c :: r
      end
  end.

(** [s.strip()] *)
Definition strip (s : str) : str := rstrip (lstrip s).

(** [s.split()]: the maximal runs of non-whitespace characters.  [cur]
    holds the run being read, reversed. *)
Fixpoint split_aux (cur : str) (s : str) : list str :=
  match s with
  | [] => match cur with [] => [] | _ => [rev cur] end
  | c :: s' =>
      if isspace c
      then match cur with
           | [] => split_aux [] s'
           | _ => rev cur :: split_aux [] s'
           end
      else split_aux (c :: cur) s'
  end.

Definition split (s : str) : list str := split_aux [] s.

(** [sep.join(parts)] *)
Fixpoint join (sep : str) (parts : list str) : str :=
  match parts with
  | [] => []
  | [p] => p
  | p :: rest => p ++ sep ++ join sep rest
  end.

(** [s.replace(c, '')] for a one-character [c]. *)
Definition remove_char (c : ascii) (s : str) : str :=
  filter (fun x => negb (Ascii.eqb x c)) s.

(** [needle in haystack] *)
Fixpoint starts_with (p s : str) : bool :=
  match p, s with
  | [], _ => true
  | a :: p', b :: s' => Ascii.eqb a b && starts_with p' s'
  | _ :: _, [] => false
  end.

Fixpoint contains (needle hay : str) : bool :=
  starts_with needle hay ||
  match hay with
  | [] => false
  | _ :: hay' => contains needle hay'
  end.

(** [str(n)] for an [int]. *)
Definition str_of_int (n : Z) : str :=
  of_string (NilZero.string_of_int (Z.to_int n)).

(** [int(s)] for a [str]: surrounding whitespace is ignored, one sign is
    allowed, and single underscores may separate digits.  [None] stands
    for [ValueError].  The interpreter's limit on the number of digits of
    a literal is not modelled. *)
Definition digit_val (c : ascii) : option Z :=
  let n := nat_of_ascii c in
  if (48 <=? n) && (n <=? 57) then Some (Z.of_nat (n - 48)) else None.

Definition is_underscore (c : ascii) : bool := Ascii.eqb c "_"%char.

(** [acc] is the value read so far; [after_digit] tells whether the
    previous character was a digit. *)
Fixpoint int_digits (acc : Z) (after_digit : bool) (s : str) : option Z :=
  match s with
  | [] => if after_digit then Some acc else None
  | c :: s' =>
      match digit_val c with
      | Some d => int_digits (10 * acc + d) true s'
      | None =>
          if is_underscore c && after_digit
          then int_digits acc false s'
          else None
      end
  end.

Definition int (s : str) : option Z :=
  match strip s with
  | c :: r =>
      if Ascii.eqb c "-"%char then option_map Z.opp (int_digits 0 false r)
      else if Ascii.eqb c "+"%char then int_digits 0 false r
      else int_digits 0 false (c :: r)
  | [] => None
  end.

End Py.

(** ** The two regular expressions of [main.py] *)

Module Re.

(** One pattern character against one text character under
    [re.IGNORECASE]. *)
Definition ci_eqb (p c : ascii) : bool :=
  Ascii.eqb (Py.lower_char p) (Py.lower_char c).

(** A literal run of the pattern at the head of the text; the result is
    the text left after it. *)
Fixpoint match_lit (p s : str) : option str :=
  match p, s with
  | [], _ => Some s
  | a :: p', c :: s' => if ci_eqb a c then match_lit p' s' else None
  | _ :: _, [] => None
  end.

(** [.] without [re.DOTALL] accepts anything but a line feed. *)
Definition is_newline (c : ascii) : bool := Ascii.eqb c "010"%char.

(** [.*?in]: the lazy star tries the shortest stretch first and grows it
    one character at a time, never across a line feed. *)
Fixpoint lazy_dot_in (s : str) : option str :=
  match match_lit "in" s with
  | Some r => Some r
  | None =>
      match s with
      | [] => None
      | c :: s' => if is_newline c then None else lazy_dot_in s'
      end
  end.

(** The pattern [f'{format}.*?in'] tried at the head of the text. *)
Definition match_here (format s : str) : option str :=
  match match_lit format s with
  | Some r => lazy_dot_in r
  | None => None
  end.

(** [re.sub(f'{format}.*?in', '', s, flags=re.IGNORECASE)]: scan from the
    left; where the pattern matches, drop the match and go on behind it;
    elsewhere keep the character and move one to the right. *)
Equations? sub_format_in (format s : str) : str by wf (length s) lt :=
  sub_format_in format [] := [];
  sub_format_in format (c :: s') with inspect (match_here format (c :: s')) := {
    | exist _ (Some r) e := sub_format_in format r;
    | exist _ None _ := c :: sub_format_in format s' }.
Proof.
  assert (Hlit : forall p t u,
             match_lit p t = Some u -> length u + length p = length t).
  { induction p as [|a p IH]; intros [|x t] u H; simpl in H;
      try discriminate; try (inversion H; simpl; lia).
    destruct (ci_eqb a x); [|discriminate].
    apply IH in H. simpl. lia. }
  assert (Hlazy : forall t u, lazy_dot_in t = Some u -> length u < length t).
  { induction t as [|x t IH]; intros u H; [discriminate|].
    cbn [lazy_dot_in] in H.
    destruct (match_lit "in" (x :: t)) as [v|] eqn:E.
    - inversion H; subst. apply Hlit in E.
      change (length (of_string "in")) with 2 in E. lia.
    - destruct (is_newline x); [discriminate|].
      apply IH in H. simpl. lia. }
  unfold match_here in e.
  destruct (match_lit format (c :: s')) as [t|] eqn:E; [|discriminate].
  apply Hlazy in e. apply Hlit in E. simpl in *. lia.
Qed.

(** [re.sub(r'\s+', ' ', s)]: each maximal run of whitespace becomes one
    space.  [in_run] tells that the previous character was whitespace. *)
Fixpoint collapse_aux (in_run : bool) (s : str) : str :=
  match s with
  | [] => []
  | c :: s' =>
      if Py.isspace c
      then if in_run then collapse_aux true s'
           else " "%char :: collapse_aux true s'
      else c :: collapse_aux false s'
  end.

Definition collapse_ws (s : str) : str := collapse_aux false s.

End Re.

(** ** [main.py]: location decomposition *)

Definition work_formats : list str :=
  [of_string "Hybrid"; of_string "Remote"; of_string "In Person"].

(** The [for format in work_formats] loop with its [break]: the result is
    the work format and the location string as the loop leaves it. *)
Fixpoint format_loop (formats : list str) (location_string : str) : str * str :=
  match formats with
  | [] => (of_string "Unknown", location_string)
  | format :: rest =>
      if Py.contains (Py.lower format) (Py.lower location_string)
      then (format, Py.strip (Re.sub_format_in format location_string))
      else format_loop rest location_string
  end.

(** The cleanup statement [re.sub(r'\s+', ' ', location_string).strip()]. *)
Definition cleanup (location_string : str) : str :=
  Py.strip (Re.collapse_ws location_string).

Definition split_work_format_and_location (location_string : str) : str * str :=
  let (work_format, location_string') := format_loop work_formats location_string in
  (work_format, cleanup location_string').

(** ** Exceptions *)

Inductive exn : Set :=
| AttributeError   (* attribute access on [None] *)
| TypeError        (* [str + None] *)
| IndexError       (* [[][0]] *)
| ValueError.      (* [int] of a malformed literal *)

Inductive res (A : Type) : Type :=
| Ok (a : A)
| Raise (e : exn).
Arguments Ok {A} a.
Arguments Raise {A} e.

(** ** The parsed page: what BeautifulSoup hands to [scraper.py] *)

(** A tag carries its name, the values of its multi-valued [class]
    attribute, its other attributes and its children. *)
Inductive node : Type :=
| Text (s : str)
| Tag (name : str) (classes : list str) (attrs : list (str * str))
      (children : list node).

Module Soup.

(** [tag.text]: all the strings below the tag, in document order. *)
Fixpoint text (n : node) : str :=
  match n with
  | Text s => s
  | Tag _ _ _ children => flat_map text children
  end.

(** Everything strictly below a node, in document order. *)
Fixpoint descendants (n : node) : list node :=
  match n with
  | Text _ => []
  | Tag _ _ _ children => flat_map (fun c => c :: descendants c) children
  end.

Fixpoint lookup (key : str) (attrs : list (str * str)) : option str :=
  match attrs with
  | [] => None
  | (k, v) :: rest => if str_eqb k key then Some v else lookup key rest
  end.

(** [tag.get(key)] for a single-valued attribute. *)
Definition get (key : str) (n : node) : option str :=
  match n with
  | Text _ => None
  | Tag _ _ attrs _ => lookup key attrs
  end.

(** The search criteria of one [find] call: a tag name, optionally
    [class_=...], optionally one [{attribute: value}] pair. *)
Record selector : Type := {
  sel_name : str;
  sel_class : option str;
  sel_attr : option (str * str)
}.

(** [class_=wanted] against a multi-valued attribute: one of the values
    equals it, or the values joined by spaces do. *)
Definition class_matches (wanted : str) (classes : list str) : bool :=
  existsb (str_eqb wanted) classes
  || str_eqb (Py.join " " classes) wanted.

Definition matches (sel : selector) (n : node) : bool :=
  match n with
  | Text _ => false
  | Tag name classes attrs _ =>
      str_eqb name (sel_name sel)
      && match sel_class sel with
         | Some wanted => class_matches wanted classes
         | None => true
         end
      && match sel_attr sel with
         | Some (k, v) =>
             match lookup k attrs with
             | Some v' => str_eqb v' v
             | None => false
             end
         | None => true
         end
  end.

(** [box.find(...)]: the first match below [box], or [None]. *)
Definition find (sel : selector) (box : node) : option node :=
  List.find (matches sel) (descendants box).

(** [soup.find_all(...)] *)
Definition find_all (sel : selector) (soup : node) : list node :=
  filter (matches sel) (descendants soup).

End Soup.

Import Soup.

Definition by_name (name : str) : selector :=
  {| sel_name := name; sel_class := None; sel_attr := None |}.
Definition by_class (name cls : str) : selector :=
  {| sel_name := name; sel_class := Some cls; sel_attr := None |}.
Definition by_attr (name key value : str) : selector :=
  {| sel_name := name; sel_class := None; sel_attr := Some (key, value) |}.

(** The selectors [scraper.py] uses. *)
Definition sel_anchor : selector := by_name "a".
Definition sel_title : selector := by_class "a" "jcs-JobTitle".
Definition sel_company : selector := by_attr "span" "data-testid" "company-name".
Definition sel_date : selector := by_class "span" "date".
Definition sel_state_date : selector := by_attr "span" "data-testid" "myJobsStateDate".
Definition sel_job_age : selector := by_attr "span" "data-testid" "job-age".
Definition sel_location : selector := by_attr "div" "data-testid" "text-location".
Definition sel_salary : selector := by_class "div" "metadata salary-snippet-container".
Definition sel_metadata : selector := by_class "div" "metadata".
Definition sel_beacon : selector := by_class "div" "job_seen_beacon".

(** ** [scraper.py]: the field extractor *)

Definition NA : str := "N/A".
Definition Unknown : str := "Unknown".

(** The dictionary [extract_job_data] returns, one field per key. *)
Record job : Type := {
  Link : str;
  Job_Title : str;
  Company : str;
  Date_Posted : str;
  Location : str;
  Salary : str;
  Job_Type : str
}.

(** [box.find(sel).text.strip() if box.find(sel) else 'N/A'] *)
Definition text_or_na (sel : selector) (box : node) : str :=
  match find sel box with
  | Some e => Py.strip (text e)
  | None => NA
  end.

(** The [for date_element in date_elements] loop. *)
Fixpoint first_date (date_elements : list (option node)) : str :=
  match date_elements with
  | [] => NA
  | Some e :: _ => Py.strip (text e)
  | None :: rest => first_date rest
  end.

Definition extract_date_posted (box : node) : str :=
  first_date [find sel_date box; find sel_state_date box; find sel_job_age box].

Definition extract_job_type (box : node) : str :=
  match find sel_metadata box with
  | Some job_type_element =>
      let job_type_text := Py.lower (Py.strip (text job_type_element)) in
      if Py.contains "full-time" job_type_text then of_string "Full-time"
      else if Py.contains "part-time" job_type_text then of_string "Part-time"
      else Unknown
  | None => Unknown
  end.

(** [country + box.find('a').get('href')]: [find] may give [None], whose
    [.get] raises; [get] may give [None], which [+] refuses. *)
Definition extract_link (box : node) (country : str) : res str :=
  match find sel_anchor box with
  | None => Raise AttributeError
  | Some a =>
      match get "href" a with
      | None => Raise TypeError
      | Some href => Ok (country ++ href)
      end
  end.

Definition extract_job_data (box : node) (country : str) : res job :=
  match extract_link box country with
  | Raise e => Raise e
  | Ok link =>
      Ok {| Link := link;
            Job_Title := text_or_na sel_title box;
            Company := text_or_na sel_company box;
            Date_Posted := extract_date_posted box;
            Location := text_or_na sel_location box;
            Salary := text_or_na sel_salary box;
            Job_Type := extract_job_type box |}
  end.

(** ** [scraper.py]: the browser-driven functions *)

Definition max_retries : nat := 3.
Definition max_jobs : Z := 15000.

(** [job_count >= max_jobs or (total_jobs != "Unknown" and
    job_count >= int(total_jobs))], with the short-circuit evaluation of
    [or] and [and]: [int] runs only when both tests before it let it. *)
Definition stop_check (job_count : Z) (total_jobs : str) : res bool :=
  if (max_jobs <=? job_count)%Z then Ok true
  else if str_eqb total_jobs Unknown then Ok false
  else match Py.int total_jobs with
       | Some n => Ok (n <=? job_count)%Z
       | None => Raise ValueError
       end.

(** The [for box in boxes] loop: one row appended and one count added
    per listing; an exception of the extractor leaves the loop. *)
Fixpoint extract_boxes (boxes : list node) (country : str)
    (df : list job) (job_count : Z) : res (list job * Z) :=
  match boxes with
  | [] => Ok (df, job_count)
  | box :: rest =>
      match extract_job_data box country with
      | Raise e => Raise e
      | Ok job_data => extract_boxes rest country (df ++ [job_data]) (job_count + 1)%Z
      end
  end.

(** [job_count_element.text.split()[0].replace(',', '').replace('+', '')] *)
Definition leading_count (text : str) : res str :=
  match Py.split text with
  | [] => Raise IndexError
  | tok :: _ => Ok (Py.remove_char "+"%char (Py.remove_char ","%char tok))
  end.

(** The f-string of [search_jobs]. *)
Definition full_url (country job_position job_location : str) (days_since : Z) : str :=
  country ++ of_string "/jobs?q=" ++ Py.join "+" (Py.split job_position)
  ++ of_string "&l=" ++ job_location
  ++ of_string "&fromage=" ++ Py.str_of_int days_since.

(** The browser session and what the code observes of it.  A wait
    answers [false] for [TimeoutException]; [job_count_text] is the text of
    the job-count element, [None] for [NoSuchElementException];
    [page_source] is the page as BeautifulSoup parses it. *)
Class Browser (driver : Type) : Type := {
  driver_get : str -> driver -> driver;
  wait_results_header : driver -> bool * driver;
  job_count_text : driver -> option str;
  wait_job_beacon : driver -> bool * driver;
  refresh : driver -> driver;
  page_source : driver -> node;
  wait_next_clickable : driver -> bool * driver;
  click_next : driver -> driver
}.

Section Scraper.

Context {driver : Type} {browser : Browser driver}.

Definition search_jobs (d : driver) (country job_position job_location : str)
    (days_since : Z) : res (str * str) * driver :=
  let url := full_url country job_position job_location days_since in
  let d1 := driver_get url d in
  let (loaded, d2) := wait_results_header d1 in
  if negb loaded then (Ok (url, Unknown), d2)
  else
    match job_count_text d2 with
    | None => (Ok (url, Unknown), d2)
    | Some text =>
        match leading_count text with
        | Raise e => (Raise e, d2)
        | Ok total_jobs => (Ok (url, total_jobs), d2)
        end
    end.

Definition navigate_to_next_page (d : driver) : bool * driver :=
  let (clickable, d1) := wait_next_clickable d in
  if clickable then (true, click_next d1) else (false, d1).

(** The [for retry in range(max_retries)] loop.  [true]: go on to parse
    the page ([break], or the range ran out); [false]: the last attempt
    timed out and the function returns [df]. *)
Fixpoint wait_for_listings (retries : list nat) (d : driver) : bool * driver :=
  match retries with
  | [] => (true, d)
  | retry :: rest =>
      let (found, d1) := wait_job_beacon d in
      if found then (true, d1)
      else if retry =? max_retries - 1 then (false, d1)
      else wait_for_listings rest (refresh d1)
  end.

(** The [while True] loop; each unit of [fuel] pays for one iteration,
    and [None] means the fuel ran out before the loop ended. *)
Fixpoint scrape_loop (fuel : nat) (d : driver) (country total_jobs : str)
    (df : list job) (job_count : Z) : option (res (list job)) :=
  match fuel with
  | O => None
  | S fuel' =>
      let (loaded, d1) := wait_for_listings (seq 0 max_retries) d in
      if negb loaded then Some (Ok df)
      else
        let boxes := find_all sel_beacon (page_source d1) in
        match extract_boxes boxes country df job_count with
        | Raise e => Some (Raise e)
        | Ok (df', job_count') =>
            match stop_check job_count' total_jobs with
            | Raise e => Some (Raise e)
            | Ok true => Some (Ok df')
            | Ok false =>
                let (more, d2) := navigate_to_next_page d1 in
                if more then scrape_loop fuel' d2 country total_jobs df' job_count'
                else Some (Ok df')
            end
        end
  end.

Definition scrape_job_data (fuel : nat) (d : driver) (country total_jobs : str)
    : option (res (list job)) :=
  scrape_loop fuel d country total_jobs [] 0%Z.

End Scraper.

(** ** Notions the statements below use *)

(** [w.lower() in s.lower()], the test that picks the work format. *)
Definition ci_contains (w s : str) : bool :=
  Py.contains (Py.lower w) (Py.lower s).

(** The first format of [work_formats] that the location mentions. *)
Definition first_format (location_string : str) : option str :=
  List.find (fun format => ci_contains format location_string) work_formats.


Definition line_feed : ascii := "010"%char.


(** A word whose whitespace is single spaces between other characters;
    the cleanup leaves such a word as it is. *)
Fixpoint tight_tail (w : str) : bool :=
  match w with
  | [] => true
  | c :: w' =>
      if Py.isspace c
      then Ascii.eqb c " "%char
           && match w' with
              | c' :: _ => negb (Py.isspace c')
              | [] => false
              end
           && tight_tail w'
      else tight_tail w'
  end.

Definition tight (w : str) : bool :=
  match w with
  | [] => false
  | c :: w' => negb (Py.isspace c) && tight_tail w'
  end.

(** The cleanup, read from the left: [squeeze b s] is the collapsed text
    with its trailing whitespace gone. *)
Definition squeeze (in_run : bool) (s : str) : str :=
  Py.rstrip (Re.collapse_aux in_run s).

(** A query term as [split] yields them: not empty, no whitespace. *)
Definition is_term (w : str) : bool :=
  negb (str_eqb w []) && forallb (fun c => negb (Py.isspace c)) w.


(** The listings of the page the session shows. *)
Definition boxes_of {driver : Type} {browser : Browser driver} (d : driver) : list node :=
  find_all sel_beacon (page_source d).

(** The session after a wait that timed out and the reload that follows. *)
Definition reloaded {driver : Type} {browser : Browser driver} (d : driver) : driver :=
  refresh (snd (wait_job_beacon d)).

(** ** Sessions and listings for the examples *)

(** A listing as the results page renders it.  Its salary container is
    itself a [div] of class [metadata] and comes before the job-type one. *)
Definition sample_box : node :=
  Tag "div" [of_string "job_seen_beacon"] []
    [ Tag "a" [of_string "jcs-JobTitle"] [(of_string "href", of_string "/rc/clk?jk=1")]
        [Text " Senior Cook "];
      Tag "span" [] [(of_string "data-testid", of_string "company-name")] [Text "Acme"];
      Tag "div" [] [(of_string "data-testid", of_string "text-location")]
        [Text "Remote in Austin, TX"];
      Tag "div" [of_string "metadata"; of_string "salary-snippet-container"] []
        [Text "$20 an hour"];
      Tag "div" [of_string "metadata"] [] [Text "Full-time"];
      Tag "span" [] [(of_string "data-testid", of_string "job-age")] [Text "Posted 3 days ago"] ].

Definition bare_box : node :=
  Tag "div" [of_string "job_seen_beacon"] []
    [ Tag "a" [] [(of_string "href", of_string "/rc/clk?jk=2")] [] ].

Definition no_anchor_box : node :=
  Tag "div" [of_string "job_seen_beacon"] []
    [ Tag "span" [] [(of_string "data-testid", of_string "company-name")] [Text "Acme"] ].

Definition anchor_without_href_box : node :=
  Tag "div" [of_string "job_seen_beacon"] []
    [ Tag "a" [of_string "jcs-JobTitle"] [] [Text "Cook"] ].

Definition bare_row : job :=
  {| Link := "https://www.indeed.com/rc/clk?jk=2";
     Job_Title := NA; Company := NA; Date_Posted := NA;
     Location := NA; Salary := NA; Job_Type := Unknown |}.

Definition results_page (boxes : list node) : node :=
  Tag "html" [] [] [Tag "body" [] [] boxes].

(** A scripted session: whether the results header shows up, the text of
    the job-count element, how many of the coming listing waits time out,
    the page on display and the pages behind the next-page control. *)
Record session : Type := {
  header_loads : bool;
  count_text : option str;
  beacon_timeouts : nat;
  current_page : node;
  next_pages : list node
}.

Definition session_wait (s : session) : bool * session :=
  match beacon_timeouts s with
  | O => (true, s)
  | S k =>
      (false,
       {| header_loads := header_loads s; count_text := count_text s;
          beacon_timeouts := k; current_page := current_page s;
          next_pages := next_pages s |})
  end.

Definition session_next (s : session) : session :=
  match next_pages s with
  | [] => s
  | p :: rest =>
      {| header_loads := header_loads s; count_text := count_text s;
         beacon_timeouts := beacon_timeouts s; current_page := p;
         next_pages := rest |}
  end.

#[export] Instance scripted : Browser session := {
  driver_get := fun _ s => s;
  wait_results_header := fun s => (header_loads s, s);
  job_count_text := count_text;
  wait_job_beacon := session_wait;
  refresh := fun s => s;
  page_source := current_page;
  wait_next_clickable := fun s => (match next_pages s with [] => false | _ => true end, s);
  click_next := session_next
}.

Definition session_of (header : bool) (count : option str) (timeouts : nat)
    (pages : list node) : session :=
  {| header_loads := header; count_text := count; beacon_timeouts := timeouts;
     current_page := hd (results_page []) pages; next_pages := tl pages |}.


(** A site whose pages carry the beacon class on an element that is not a
    [div], and whose next-page control never goes away. *)
Definition empty_page : node :=
  results_page [Tag "li" [of_string "job_seen_beacon"] [] []].

Inductive endless : Type := Endless.

#[export] Instance endless_site : Browser endless := {
  driver_get := fun _ s => s;
  wait_results_header := fun s => (true, s);
  job_count_text := fun _ => None;
  wait_job_beacon := fun s => (true, s);
  refresh := fun s => s;
  page_source := fun _ => empty_page;
  wait_next_clickable := fun s => (true, s);
  click_next := fun s => s
}.

(** A site of three result pages with two listings each; the state is the
    number of pages turned. *)
Inductive paged : Type := Turned (pages : nat).

Definition pages_turned (s : paged) : nat :=
  match s with Turned n => n end.

#[export] Instance three_page_site : Browser paged := {
  driver_get := fun _ s => s;
  wait_results_header := fun s => (true, s);
  job_count_text := fun _ => Some (of_string "5 jobs");
  wait_job_beacon := fun s => (true, s);
  refresh := fun s => s;
  page_source := fun _ => results_page [sample_box; bare_box];
  wait_next_clickable := fun s => (pages_turned s <? 2, s);
  click_next := fun s => Turned (S (pages_turned s))
}.

(** ** Further notions *)

(** The characters of a text that are not whitespace, in order. *)
Definition solid (s : str) : str :=
  filter (fun c => negb (Py.isspace c)) s.

(** A text of whitespace only, the empty one included. *)
Definition blank (s : str) : bool := forallb Py.isspace s.

(** A text in the form the cleanup leaves: empty, or words with one space
    between them and nothing around. *)
Definition normalized (s : str) : bool :=
  match s with
  | [] => true
  | _ :: _ => tight s
  end.

(** A text with no whitespace at either end. *)
Definition trimmed (s : str) : bool :=
  match s with
  | [] => true
  | c :: _ => negb (Py.isspace c) && negb (Py.isspace (last s c))
  end.

(** A word that ends in a character other than whitespace. *)
Definition ends_solid (w : str) : bool :=
  match rev w with
  | [] => false
  | c :: _ => negb (Py.isspace c)
  end.

(** A tag whose [class] values are non-empty and free of whitespace, as
    the parser yields them when it splits the attribute. *)
Definition class_tokens_ok (n : node) : bool :=
  match n with
  | Text _ => true
  | Tag _ classes _ _ => forallb is_term classes
  end.

(** A listing whose first date candidate is there but holds only
    whitespace, while a later candidate carries the date. *)
Definition blank_date_box : node :=
  Tag "div" [of_string "job_seen_beacon"] []
    [ Tag "a" [of_string "jcs-JobTitle"] [(of_string "href", of_string "/rc/clk?jk=3")]
        [Text "Cook"];
      Tag "span" [of_string "date"] [] [Text "  "];
      Tag "span" [] [(of_string "data-testid", of_string "job-age")]
        [Text "Posted 3 days ago"] ].

(** A text without any whitespace. *)
Definition no_space (s : str) : bool :=
  forallb (fun c => negb (Py.isspace c)) s.



(** A result page with a listing that has no anchor behind a good one. *)
Definition broken_page_session : session :=
  session_of true None 0 [results_page [sample_box; no_anchor_box]].

(** ** [main.py]: the pipeline *)

(** A row of the table after the location columns were added. *)
Record listing : Type := {
  posting : job;
  Work_Format : str;
  Processed_Location : str
}.

(** [df['Location'].apply(split_work_format_and_location)], one row. *)
Definition process_location (j : job) : listing :=
  let (work_format, location) := split_work_format_and_location (Location j) in
  {| posting := j; Work_Format := work_format; Processed_Location := location |}.

Definition process_locations (df : list job) : list listing :=
  map process_location df.

(** What [main] does to the world outside, in order: the calls it makes to
    the storage, the warehouse and the analysis, its messages that the load
    went through and that the pipeline completed, and the release of the
    browser. *)
Inductive event : Type :=
| Upload (rows : list listing) (bucket blob : str)
| Load (bucket blob project dataset table : str)
| Loaded
| Analyse (rows : list listing)
| Completed
| Quit.

(** The collaborators of [main], each with its outcome: [None] and [false]
    stand for an exception.  [days_elapsed] is
    [(date.today() - target_date).days]; [cluster_it_jobs] is the body of
    the [try] of [identify_it_jobs], whose added columns are not modelled;
    [load_to_bigquery] answers [false] for the exceptions it lets out. *)
Class Services (driver : Type) : Type := {
  configure_webdriver : option driver;
  days_elapsed : Z;
  bucket_name : str;
  project_id : str;
  dataset_id : str;
  cluster_it_jobs : list listing -> option (list listing);
  upload_to_gcs : list listing -> str -> str -> bool;
  load_to_bigquery : str -> str -> str -> str -> str -> bool;
  basic_data_analysis : list listing -> bool
}.

Definition blob_name : str := "indeed_it_jobs_20240901.csv".
Definition table_id : str := "indeed_it_jobs".

Section Pipeline.

Context {driver : Type} {browser : Browser driver} {services : Services driver}.

(** [identify_it_jobs]: on any exception the table comes back as it is. *)
Definition identify_it_jobs (df : list listing) : list listing :=
  match cluster_it_jobs df with
  | Some it_jobs => it_jobs
  | None => df
  end.

(** The [else] branch of [if df.empty], up to the exception that ends it. *)
Definition deliver (df : list job) : list event :=
  let df' := process_locations df in
  let df_it_jobs := identify_it_jobs df' in
  Upload df_it_jobs bucket_name blob_name ::
  if upload_to_gcs df_it_jobs bucket_name blob_name
  then
    Load bucket_name blob_name project_id dataset_id table_id ::
    (if load_to_bigquery bucket_name blob_name project_id dataset_id table_id
     then [Loaded] else [])
    ++ Analyse df_it_jobs ::
       (if basic_data_analysis df_it_jobs then [Completed] else [])
  else [].

(** [main]: every exception is caught and logged, and the [finally]
    clause releases the browser when one was obtained.  [None]: the
    harvest loop did not end within [fuel] iterations. *)
Definition main (fuel : nat) : option (list event) :=
  match configure_webdriver with
  | None => Some []
  | Some d =>
      let country := of_string "https://www.indeed.com" in
      let days_since := Z.max 0 days_elapsed in
      match fst (search_jobs d country "IT" "all" days_since) with
      | Raise _ => Some [Quit]
      | Ok (_, total_jobs) =>
          let d' := snd (search_jobs d country "IT" "all" days_since) in
          match scrape_job_data fuel d' country total_jobs with
          | None => None
          | Some (Raise _) => Some [Quit]
          | Some (Ok []) => Some [Quit]
          | Some (Ok (row :: rows)) => Some (deliver (row :: rows) ++ [Quit])
          end
      end
  end.

End Pipeline.

(** The three-page site with a storage that accepts the upload, a
    warehouse whose load fails and a classifier that fails. *)
#[export] Instance three_page_services : Services paged := {
  configure_webdriver := Some (Turned 0);
  days_elapsed := 30%Z;
  bucket_name := "jobs-bucket";
  project_id := "jobs-project";
  dataset_id := "jobs";
  cluster_it_jobs := fun _ => None;
  upload_to_gcs := fun _ _ _ => true;
  load_to_bigquery := fun _ _ _ _ _ => false;
  basic_data_analysis := fun _ => true
}.

(** * Properties *)

(** Split a goal into all its conjuncts. *)
Ltac conjuncts := repeat match goal with |- _ /\ _ => split end.

(** ** Examples *)

Example split_ex : Py.split "  senior   cook " = [of_string "senior"; of_string "cook"].
Proof. reflexivity. Qed.

Example strip_ex : Py.strip "  a b  " = of_string "a b".
Proof. reflexivity. Qed.

Example int_ex :
  Py.int "1_000" = Some 1000%Z /\ Py.int " -12 " = Some (-12)%Z
  /\ Py.int "" = None /\ Py.int "1__0" = None /\ Py.int "Over" = None
  /\ Py.int "12_" = None /\ Py.int "+7" = Some 7%Z.
Proof. repeat split; reflexivity. Qed.

Example str_of_int_ex :
  Py.str_of_int 5 = of_string "5" /\ Py.str_of_int (-12) = of_string "-12"
  /\ Py.str_of_int 0 = of_string "0".
Proof. repeat split; reflexivity. Qed.

Example decompose_ex1 :
  split_work_format_and_location "Remote in Austin, TX"
  = (of_string "Remote", of_string "Austin, TX").
Proof. reflexivity. Qed.

Example decompose_ex2 :
  split_work_format_and_location "New York, NY"
  = (of_string "Unknown", of_string "New York, NY").
Proof. reflexivity. Qed.

Example decompose_ex3 :
  split_work_format_and_location " Hybrid   work in  Boston , MA "
  = (of_string "Hybrid", of_string "Boston , MA").
Proof. reflexivity. Qed.

Example decompose_ex4 :
  split_work_format_and_location "Remote"
  = (of_string "Remote", of_string "Remote").
Proof. reflexivity. Qed.

(** The job type is read from the first [div] of class [metadata], here
    the salary container, so "Full-time" further down is not seen. *)
Example extract_sample :
  extract_job_data sample_box "https://www.indeed.com"
  = Ok {| Link := "https://www.indeed.com/rc/clk?jk=1";
          Job_Title := "Senior Cook";
          Company := "Acme";
          Date_Posted := "Posted 3 days ago";
          Location := "Remote in Austin, TX";
          Salary := "$20 an hour";
          Job_Type := "Unknown" |}.
Proof. reflexivity. Qed.

Example extract_bare :
  extract_job_data bare_box "https://www.indeed.com"
  = Ok {| Link := "https://www.indeed.com/rc/clk?jk=2";
          Job_Title := NA; Company := NA; Date_Posted := NA;
          Location := NA; Salary := NA; Job_Type := Unknown |}.
Proof. reflexivity. Qed.

(** ** Matching lengths *)

Section Matching.

Import Py Re.

Lemma match_lit_length p s r :
  match_lit p s = Some r -> length r + length p = length s.
Proof.
  revert s; induction p as [|a p IH]; intros [|c s] H; simpl in *;
    try discriminate.
  - inversion H; reflexivity.
  - inversion H; simpl; lia.
  - destruct (ci_eqb a c); [|discriminate].
    apply IH in H. lia.
Qed.

Lemma lazy_dot_in_length s r :
  lazy_dot_in s = Some r -> length r + 2 <= length s.
Proof.
  induction s as [|c s IH]; intros H.
  - simpl in H. discriminate.
  - cbn [lazy_dot_in] in H.
    destruct (match_lit "in" (c :: s)) as [r'|] eqn:E.
    + inversion H; subst. apply match_lit_length in E.
      change (length (of_string "in")) with 2 in E. lia.
    + destruct (is_newline c); [discriminate|].
      apply IH in H. simpl. lia.
Qed.

Lemma match_here_length format s r :
  match_here format s = Some r -> length r < length s.
Proof.
  unfold match_here. destruct (match_lit format s) as [t|] eqn:E;
    [|discriminate].
  intros H. apply lazy_dot_in_length in H. apply match_lit_length in E. lia.
Qed.

End Matching.

(** ** Whitespace cleanup *)

Section Cleanup.

Import Py Re.

Lemma rstrip_cons_solid c r :
  isspace c = false -> rstrip (c :: r) = c :: rstrip r.
Proof.
  intros Hc. simpl. rewrite Hc. destruct (rstrip r); reflexivity.
Qed.

Lemma rstrip_cons_space c r :
  isspace c = true ->
  rstrip (c :: r) = match rstrip r with [] => [] | x :: r' => c :: x :: r' end.
Proof.
  intros Hc. simpl. rewrite Hc. reflexivity.
Qed.

Lemma squeeze_solid b c s :
  isspace c = false -> squeeze b (c :: s) = c :: squeeze false s.
Proof.
  intros Hc. unfold squeeze. simpl. rewrite Hc.
  apply rstrip_cons_solid, Hc.
Qed.

Lemma squeeze_space_run c s :
  isspace c = true -> squeeze true (c :: s) = squeeze true s.
Proof.
  intros Hc. unfold squeeze. simpl. rewrite Hc. reflexivity.
Qed.

Lemma squeeze_space_new c s :
  isspace c = true ->
  squeeze false (c :: s)
  = match squeeze true s with [] => [] | x :: r => " "%char :: x :: r end.
Proof.
  intros Hc. unfold squeeze. simpl. rewrite Hc.
  apply rstrip_cons_space. reflexivity.
Qed.

Lemma lstrip_collapse_run s :
  lstrip (collapse_aux true s) = collapse_aux true s.
Proof.
  induction s as [|c s IH]; simpl; [reflexivity|].
  destruct (isspace c) eqn:Hc; [exact IH|].
  simpl. rewrite Hc. reflexivity.
Qed.

Lemma lstrip_collapse s :
  lstrip (collapse_aux false s) = collapse_aux true s.
Proof.
  destruct s as [|c s]; simpl; [reflexivity|].
  destruct (isspace c) eqn:Hc; simpl.
  - apply lstrip_collapse_run.
  - rewrite Hc. reflexivity.
Qed.

Lemma cleanup_squeeze s : cleanup s = squeeze true s.
Proof.
  unfold cleanup, strip, collapse_ws, squeeze.
  rewrite lstrip_collapse. reflexivity.
Qed.

Lemma squeeze_idem s :
  squeeze true (squeeze true s) = squeeze true s
  /\ squeeze false (squeeze false s) = squeeze false s.
Proof.
  induction s as [|c s [IHt IHf]]; [split; reflexivity|].
  destruct (isspace c) eqn:Hc.
  - rewrite squeeze_space_run by exact Hc. split; [exact IHt|].
    rewrite squeeze_space_new by exact Hc.
    destruct (squeeze true s) as [|x r] eqn:E; [reflexivity|].
    rewrite squeeze_space_new by reflexivity.
    rewrite IHt. reflexivity.
  - rewrite !squeeze_solid by exact Hc.
    rewrite IHf. split; reflexivity.
Qed.

Lemma collapse_run_lstrip s :
  collapse_aux true (lstrip s) = collapse_aux true s.
Proof.
  induction s as [|c s IH]; simpl; [reflexivity|].
  destruct (isspace c) eqn:Hc; [exact IH|].
  simpl. rewrite Hc. reflexivity.
Qed.

Lemma squeeze_rstrip s : forall b, squeeze b (rstrip s) = squeeze b s.
Proof.
  induction s as [|c s IH]; intros b; [reflexivity|].
  destruct (isspace c) eqn:Hc.
  - rewrite rstrip_cons_space by exact Hc.
    destruct b.
    + rewrite squeeze_space_run by exact Hc. rewrite <- (IH true).
      destruct (rstrip s) as [|x r]; [reflexivity|].
      apply squeeze_space_run, Hc.
    + rewrite squeeze_space_new by exact Hc. rewrite <- (IH true).
      destruct (rstrip s) as [|x r]; [reflexivity|].
      apply squeeze_space_new, Hc.
  - rewrite rstrip_cons_solid by exact Hc.
    rewrite !squeeze_solid by exact Hc. rewrite IH.
    reflexivity.
Qed.

Lemma cleanup_strip s : cleanup (strip s) = cleanup s.
Proof.
  rewrite !cleanup_squeeze. unfold strip.
  rewrite squeeze_rstrip. unfold squeeze.
  rewrite collapse_run_lstrip. reflexivity.
Qed.

Lemma cleanup_idem s : cleanup (cleanup s) = cleanup s.
Proof.
  rewrite !cleanup_squeeze. apply squeeze_idem.
Qed.

End Cleanup.

(** ** The keyword substitution *)

Section Substitution.

Import Py Re.

Lemma sub_cons format c s :
  sub_format_in format (c :: s)
  = match match_here format (c :: s) with
    | Some r => sub_format_in format r
    | None => c :: sub_format_in format s
    end.
Proof.
  rewrite sub_format_in_equation_2.
  destruct (Logic.inspect (match_here format (c :: s))) as [[r|] e];
    cbn [sub_format_in_unfold_clause_2]; rewrite e; reflexivity.
Qed.






Lemma starts_with_nil w : starts_with w [] = true -> w = [].
Proof. destruct w; [reflexivity|discriminate]. Qed.


Lemma contains_unfold w s :
  contains w s
  = starts_with w s || match s with [] => false | _ :: s' => contains w s' end.
Proof. destruct s; reflexivity. Qed.


Lemma contains_cons w c s : contains w s = true -> contains w (c :: s) = true.
Proof. intros H. rewrite contains_unfold, H. apply orb_true_r. Qed.

Lemma contains_nil w : contains w [] = true -> w = [].
Proof.
  rewrite contains_unfold, orb_false_r. apply starts_with_nil.
Qed.






End Substitution.

Section Segment.

Import Py Re.





Lemma lower_isspace c : isspace (lower_char c) = isspace c.
Proof.
  destruct c as [[] [] [] [] [] [] [] []]; reflexivity.
Qed.





End Segment.

(** ** Location decomposition *)

Section Decompose.

Import Py Re.

Lemma format_loop_find location_string : forall formats,
  format_loop formats location_string
  = match List.find (fun format => ci_contains format location_string) formats with
    | Some format =>
        (format, strip (sub_format_in format location_string))
    | None => (of_string "Unknown", location_string)
    end.
Proof.
  induction formats as [|format rest IH]; simpl; [reflexivity|].
  fold (ci_contains format location_string).
  destruct (ci_contains format location_string); [reflexivity|exact IH].
Qed.

Lemma decompose_selected location_string format :
  first_format location_string = Some format ->
  split_work_format_and_location location_string
  = (format, cleanup (sub_format_in format location_string)).
Proof.
  intros H. unfold split_work_format_and_location.
  rewrite format_loop_find. unfold first_format in H. rewrite H.
  rewrite cleanup_strip. reflexivity.
Qed.

Lemma decompose_unselected location_string :
  first_format location_string = None ->
  split_work_format_and_location location_string
  = (of_string "Unknown", cleanup location_string).
Proof.
  intros H. unfold split_work_format_and_location.
  rewrite format_loop_find. unfold first_format in H. rewrite H.
  reflexivity.
Qed.


End Decompose.



(** C8: the whitespace cleanup of the decomposition is idempotent, on
    every string and so on every processed location; and
    [" Hybrid   work in  Boston , MA "] decomposes into
    ["Hybrid"] and ["Boston , MA"]. *)
Theorem cleanup_idempotent :
  (forall s, cleanup (cleanup s) = cleanup s)
  /\ (forall location_string,
        cleanup (snd (split_work_format_and_location location_string))
        = snd (split_work_format_and_location location_string))
  /\ split_work_format_and_location " Hybrid   work in  Boston , MA "
     = (of_string "Hybrid", of_string "Boston , MA").
Proof.
  split; [exact cleanup_idem|]. split; [|reflexivity].
  intros location_string. unfold split_work_format_and_location.
  destruct (format_loop work_formats location_string) as [wf ls].
  apply cleanup_idem.
Qed.



(** ** The field extractor *)



Lemma extract_job_data_fields box country r :
  extract_job_data box country = Ok r ->
  Job_Title r = text_or_na sel_title box
  /\ Company r = text_or_na sel_company box
  /\ Date_Posted r = extract_date_posted box
  /\ Location r = text_or_na sel_location box
  /\ Salary r = text_or_na sel_salary box
  /\ Job_Type r = extract_job_type box.
Proof.
  unfold extract_job_data. destruct (extract_link box country); [|discriminate].
  intros H. injection H as <-. repeat split; reflexivity.
Qed.

(** C2 (as stated, refuted): a listing with no anchor makes the extractor
    raise, and so does one whose anchor has no [href]. *)
Lemma extract_without_anchor_raises :
  find sel_anchor no_anchor_box = None
  /\ extract_job_data no_anchor_box "https://www.indeed.com" = Raise AttributeError
  /\ extract_job_data anchor_without_href_box "https://www.indeed.com" = Raise TypeError.
Proof. repeat split; reflexivity. Qed.

(** C2 (amended): for every listing whose first anchor carries an [href]
    the extractor returns a record, its link the base URL followed by that
    [href], whichever optional sub-elements are absent; and whenever the
    extractor raises, the anchor or its [href] is what is missing, never
    an optional field. *)
Theorem extract_total_given_anchor box country :
  (forall a href,
     find sel_anchor box = Some a -> get "href" a = Some href ->
     exists r, extract_job_data box country = Ok r /\ Link r = country ++ href)
  /\ (forall e,
        extract_job_data box country = Raise e ->
        find sel_anchor box = None
        \/ exists a, find sel_anchor box = Some a /\ get "href" a = None).
Proof.
  unfold extract_job_data, extract_link. split.
  - intros a href -> ->. eexists. split; reflexivity.
  - intros e H. destruct (find sel_anchor box) as [a|]; [|left; reflexivity].
    right. exists a. split; [reflexivity|].
    destruct (get "href" a); [discriminate|reflexivity].
Qed.

Lemma extract_total_given_anchor_witness :
  exists r, extract_job_data sample_box "https://www.indeed.com" = Ok r
            /\ Link r = of_string "https://www.indeed.com" ++ of_string "/rc/clk?jk=1".
Proof.
  apply (proj1 (extract_total_given_anchor sample_box "https://www.indeed.com")
           (Tag "a" [of_string "jcs-JobTitle"]
              [(of_string "href", of_string "/rc/clk?jk=1")] [Text " Senior Cook "])
           (of_string "/rc/clk?jk=1"));
    reflexivity.
Defined.



(** ** The search URL and the expected count *)

Section Terms.

Import Py.

Lemma is_term_rev cur :
  cur <> [] -> forallb (fun c => negb (isspace c)) cur = true ->
  is_term (rev cur) = true.
Proof.
  intros Hne Hall. unfold is_term. apply andb_true_iff. split.
  - unfold str_eqb. destruct (list_eq_dec ascii_dec (rev cur) []) as [E|];
      [|reflexivity].
    apply (f_equal (@rev ascii)) in E. rewrite rev_involutive in E.
    contradiction.
  - apply forallb_forall. intros x Hx. apply in_rev in Hx.
    rewrite forallb_forall in Hall. apply Hall, Hx.
Qed.

Lemma split_aux_terms s : forall cur,
  forallb (fun c => negb (isspace c)) cur = true ->
  Forall (fun w => is_term w = true) (split_aux cur s).
Proof.
  induction s as [|c s IH]; intros cur Hcur; simpl.
  - destruct cur as [|x cur]; constructor; [|constructor].
    apply is_term_rev; [discriminate|exact Hcur].
  - destruct (isspace c) eqn:Hc.
    + destruct cur as [|x cur]; [apply IH; reflexivity|].
      constructor; [|apply IH; reflexivity].
      apply is_term_rev; [discriminate|exact Hcur].
    + apply IH. simpl. rewrite Hc. exact Hcur.
Qed.

Lemma split_aux_concat s : forall cur,
  concat (split_aux cur s)
  = rev cur ++ filter (fun c => negb (isspace c)) s.
Proof.
  induction s as [|c s IH]; intros cur; simpl.
  - destruct cur; simpl; rewrite ?app_nil_r; reflexivity.
  - destruct (isspace c) eqn:Hc; simpl.
    + destruct cur as [|x cur]; simpl; rewrite IH; reflexivity.
    + rewrite IH. simpl. rewrite <- app_assoc. reflexivity.
Qed.

End Terms.

Section Search.

Context {driver : Type} {browser : Browser driver}.

Lemma search_jobs_cases (d : driver) country job_position job_location days_since :
  let url := full_url country job_position job_location days_since in
  let w := wait_results_header (driver_get url d) in
  search_jobs d country job_position job_location days_since
  = if negb (fst w) then (Ok (url, Unknown), snd w)
    else match job_count_text (snd w) with
         | None => (Ok (url, Unknown), snd w)
         | Some text =>
             match leading_count text with
             | Raise e => (Raise e, snd w)
             | Ok total_jobs => (Ok (url, total_jobs), snd w)
             end
         end.
Proof.
  cbv zeta. unfold search_jobs.
  destruct (wait_results_header _) as [loaded d2]. reflexivity.
Qed.

(** C6: whatever the browser does, the URL [search_jobs] sends it to and
    returns is the base URL, ["/jobs?q="], the whitespace-separated terms
    of the query joined by ["+"], ["&l="] and the location, ["&fromage="]
    and the number of days; the terms are the non-empty whitespace-free
    pieces of the query, in order.  For the base ["https://example.com"],
    the query ["senior cook"], the location ["Denver"] and 5 days this is
    ["https://example.com/jobs?q=senior+cook&l=Denver&fromage=5"]. *)
Theorem search_builds_url (d : driver) country job_position job_location days_since :
  (forall url total_jobs,
     fst (search_jobs d country job_position job_location days_since)
     = Ok (url, total_jobs) ->
     url = country ++ of_string "/jobs?q="
           ++ Py.join "+" (Py.split job_position)
           ++ of_string "&l=" ++ job_location
           ++ of_string "&fromage=" ++ Py.str_of_int days_since)
  /\ snd (search_jobs d country job_position job_location days_since)
     = snd (wait_results_header
              (driver_get (country ++ of_string "/jobs?q="
                           ++ Py.join "+" (Py.split job_position)
                           ++ of_string "&l=" ++ job_location
                           ++ of_string "&fromage=" ++ Py.str_of_int days_since) d))
  /\ Forall (fun w => is_term w = true) (Py.split job_position)
  /\ concat (Py.split job_position)
     = filter (fun c => negb (Py.isspace c)) job_position
  /\ full_url "https://example.com" "senior cook" "Denver" 5
     = of_string "https://example.com/jobs?q=senior+cook&l=Denver&fromage=5"
  /\ fst (search_jobs (session_of true (Some (of_string "1,234+ jobs")) 0 [])
            "https://example.com" "senior cook" "Denver" 5)
     = Ok (of_string "https://example.com/jobs?q=senior+cook&l=Denver&fromage=5",
           of_string "1234").
Proof.
  pose proof (search_jobs_cases d country job_position job_location days_since)
    as Hs.
  cbv zeta in Hs. fold (full_url country job_position job_location days_since).
  conjuncts.
  - intros url total_jobs H. rewrite Hs in H.
    destruct (negb (fst (wait_results_header _))); simpl in H.
    + congruence.
    + destruct (job_count_text _); simpl in H; [|congruence].
      destruct (leading_count _); simpl in H; congruence.
  - rewrite Hs.
    destruct (negb (fst (wait_results_header _))); [reflexivity|].
    destruct (job_count_text _); [|reflexivity].
    destruct (leading_count _); reflexivity.
  - apply split_aux_terms. reflexivity.
  - apply (split_aux_concat job_position []).
  - reflexivity.
  - reflexivity.
Qed.

(** C7 (amended): when the wait for the results header times out, or the
    job-count element is not there, [search_jobs] answers "Unknown"; when
    the element is there and its text has a first whitespace-delimited
    token, the answer is that token with every comma and every "+"
    removed, as a string and without any test that it is a number. *)
Theorem search_count_token (d : driver) country job_position job_location days_since :
  (fst (wait_results_header
          (driver_get (full_url country job_position job_location days_since) d))
   = false ->
   fst (search_jobs d country job_position job_location days_since)
   = Ok (full_url country job_position job_location days_since, Unknown))
  /\ (job_count_text
        (snd (wait_results_header
                (driver_get (full_url country job_position job_location days_since) d)))
      = None ->
      fst (search_jobs d country job_position job_location days_since)
      = Ok (full_url country job_position job_location days_since, Unknown))
  /\ (forall text tok rest,
        fst (wait_results_header
               (driver_get (full_url country job_position job_location days_since) d))
        = true ->
        job_count_text
          (snd (wait_results_header
                  (driver_get (full_url country job_position job_location days_since) d)))
        = Some text ->
        Py.split text = tok :: rest ->
        fst (search_jobs d country job_position job_location days_since)
        = Ok (full_url country job_position job_location days_since,
              Py.remove_char "+"%char (Py.remove_char ","%char tok))).
Proof.
  pose proof (search_jobs_cases d country job_position job_location days_since)
    as Hs.
  cbv zeta in Hs. rewrite Hs. clear Hs.
  conjuncts.
  - intros ->. reflexivity.
  - intros ->. destruct (negb _); reflexivity.
  - intros text tok rest -> -> Hsplit. simpl.
    unfold leading_count. rewrite Hsplit. reflexivity.
Qed.

End Search.

(** C7 (as stated, refuted): with the job-count element present and its
    text blank, [split()[0]] raises [IndexError], which nothing catches;
    with a text whose first token is no number, that token is returned
    and no fallback to "Unknown" takes place. *)
Lemma search_count_without_fallback :
  fst (search_jobs (session_of true (Some (of_string "")) 0 [])
         "https://www.indeed.com" "IT" "all" 30)
  = Raise IndexError
  /\ fst (search_jobs (session_of true (Some (of_string "Page 1 of 3")) 0 [])
            "https://www.indeed.com" "IT" "all" 30)
     = Ok (of_string "https://www.indeed.com/jobs?q=IT&l=all&fromage=30",
           of_string "Page")
  /\ Py.int "Page" = None.
Proof. repeat split; reflexivity. Qed.

Lemma search_builds_url_witness :
  of_string "https://www.indeed.com/jobs?q=data+engineer&l=Austin&fromage=7"
  = of_string "https://www.indeed.com" ++ of_string "/jobs?q="
    ++ Py.join "+" (Py.split "data   engineer")
    ++ of_string "&l=" ++ of_string "Austin"
    ++ of_string "&fromage=" ++ Py.str_of_int 7.
Proof.
  apply (proj1 (search_builds_url (session_of false None 0 [])
                  "https://www.indeed.com" "data   engineer" "Austin" 7)
           (of_string "https://www.indeed.com/jobs?q=data+engineer&l=Austin&fromage=7")
           Unknown).
  reflexivity.
Defined.

Lemma search_count_token_witness :
  fst (search_jobs (session_of true (Some (of_string "2,000+ jobs")) 0 [])
         "https://www.indeed.com" "IT" "all" 30)
  = Ok (full_url "https://www.indeed.com" "IT" "all" 30,
        Py.remove_char "+"%char (Py.remove_char ","%char (of_string "2,000+"))).
Proof.
  apply (proj2 (proj2 (search_count_token
                         (session_of true (Some (of_string "2,000+ jobs")) 0 [])
                         "https://www.indeed.com" "IT" "all" 30))
           (of_string "2,000+ jobs") (of_string "2,000+") [of_string "jobs"]);
    reflexivity.
Defined.

(** ** The harvest loop *)








Section Harvest.

Context {driver : Type} {browser : Browser driver}.

Variables country total_jobs : str.

Lemma scrape_loop_step fuel (d : driver) df n :
  scrape_loop (S fuel) d country total_jobs df n
  = if negb (fst (wait_for_listings (seq 0 max_retries) d)) then Some (Ok df)
    else
      let d1 := snd (wait_for_listings (seq 0 max_retries) d) in
      match extract_boxes (boxes_of d1) country df n with
      | Raise e => Some (Raise e)
      | Ok (df', n') =>
          match stop_check n' total_jobs with
          | Raise e => Some (Raise e)
          | Ok true => Some (Ok df')
          | Ok false =>
              if fst (navigate_to_next_page d1)
              then scrape_loop fuel (snd (navigate_to_next_page d1))
                     country total_jobs df' n'
              else Some (Ok df')
          end
      end.
Proof.
  cbn [scrape_loop]. unfold boxes_of.
  destruct (wait_for_listings (seq 0 max_retries) d) as [loaded d1].
  cbn [fst snd]. destruct (negb loaded); [reflexivity|]. cbv zeta.
  destruct (extract_boxes _ country df n) as [[df' n']|]; [|reflexivity].
  destruct (stop_check n' total_jobs) as [[|]|]; try reflexivity.
  destruct (navigate_to_next_page d1) as [more d2]. reflexivity.
Qed.

Lemma three_timeouts (d : driver) :
  fst (wait_job_beacon d) = false ->
  fst (wait_job_beacon (reloaded d)) = false ->
  fst (wait_job_beacon (reloaded (reloaded d))) = false ->
  fst (wait_for_listings (seq 0 max_retries) d) = false.
Proof.
  unfold reloaded. intros H1 H2 H3. cbn [seq max_retries wait_for_listings].
  destruct (wait_job_beacon d) as [f1 d1]. cbn [fst snd] in *. subst f1.
  cbn [Nat.eqb Nat.sub].
  destruct (wait_job_beacon (refresh d1)) as [f2 d2]. cbn [fst snd] in *.
  subst f2. cbn [Nat.eqb Nat.sub].
  destruct (wait_job_beacon (refresh d2)) as [f3 d3]. cbn [fst snd] in *.
  subst f3. reflexivity.
Qed.

(** C5: when the wait for the listings times out three times in a row,
    the page reloaded after the first and after the second timeout, the
    loop ends there and returns the rows gathered so far, none at the
    start of a run; it does not raise. *)
Theorem three_timeouts_return_accumulator fuel (d : driver) df n :
  fst (wait_job_beacon d) = false ->
  fst (wait_job_beacon (reloaded d)) = false ->
  fst (wait_job_beacon (reloaded (reloaded d))) = false ->
  scrape_loop (S fuel) d country total_jobs df n = Some (Ok df)
  /\ scrape_job_data (S fuel) d country total_jobs = Some (Ok []).
Proof.
  intros H1 H2 H3. pose proof (three_timeouts d H1 H2 H3) as Hw.
  unfold scrape_job_data. rewrite !scrape_loop_step, Hw. split; reflexivity.
Qed.





End Harvest.

(** ** Runs of the scripted sessions *)









Lemma three_timeouts_return_accumulator_witness :
  scrape_loop 1 (session_of true None 3 [results_page [sample_box]])
    "https://www.indeed.com" Unknown [bare_row] 1
  = Some (Ok [bare_row])
  /\ scrape_job_data 1 (session_of true None 3 [results_page [sample_box]])
       "https://www.indeed.com" Unknown
     = Some (Ok []).
Proof.
  apply (@three_timeouts_return_accumulator session scripted
           "https://www.indeed.com" Unknown 0
           (session_of true None 3 [results_page [sample_box]]) [bare_row] 1%Z);
    reflexivity.
Defined.



(** * Further properties of the code *)

(** ** Location decomposition, continued *)

Section DecomposeMore.

Import Py Re.

Lemma squeeze_normal s :
  tight_tail (squeeze false s) = true /\ normalized (squeeze true s) = true.
Proof.
  induction s as [|c s [IHf IHt]]; [split; reflexivity|].
  destruct (isspace c) eqn:Hc.
  - rewrite squeeze_space_run by exact Hc. split; [|exact IHt].
    rewrite squeeze_space_new by exact Hc.
    destruct (squeeze true s) as [|x r]; [reflexivity|].
    simpl in IHt. apply andb_true_iff in IHt as [Hx Hr].
    change (tight_tail (" "%char :: x :: r))
      with (true && negb (isspace x) && tight_tail (x :: r)).
    rewrite Hx. simpl. apply negb_true_iff in Hx. rewrite Hx. exact Hr.
  - rewrite !squeeze_solid by exact Hc. split.
    + simpl. rewrite Hc. exact IHf.
    + simpl. rewrite Hc. exact IHf.
Qed.

Lemma cleanup_normalized s : normalized (cleanup s) = true.
Proof. rewrite cleanup_squeeze. apply squeeze_normal. Qed.

Lemma sub_length format : forall n s,
  length s <= n -> length (sub_format_in format s) <= length s.
Proof.
  induction n as [|n IH]; intros [|c s] L; simpl in L;
    try (rewrite sub_format_in_equation_1; simpl; lia); try lia.
  rewrite sub_cons.
  destruct (match_here format (c :: s)) as [r|] eqn:E.
  - apply match_here_length in E. simpl in E.
    specialize (IH r). simpl. lia.
  - specialize (IH s). simpl. lia.
Qed.

Lemma decompose_snd location_string :
  exists t, snd (split_work_format_and_location location_string) = cleanup t
            /\ length t <= length location_string
            /\ (first_format location_string = None -> t = location_string).
Proof.
  destruct (first_format location_string) as [format|] eqn:E.
  - exists (sub_format_in format location_string).
    rewrite (decompose_selected _ E). split; [reflexivity|].
    split; [|discriminate].
    apply (sub_length format (n := length location_string)). lia.
  - exists location_string. rewrite (decompose_unselected _ E).
    split; [reflexivity|]. split; [lia|reflexivity].
Qed.

Lemma lstrip_length s : length (lstrip s) <= length s.
Proof.
  induction s as [|c s IH]; simpl; [lia|].
  destruct (isspace c); simpl; lia.
Qed.

Lemma rstrip_length s : length (rstrip s) <= length s.
Proof.
  induction s as [|c s IH]; simpl; [lia|].
  destruct (rstrip s); [destruct (isspace c)|]; simpl in *; lia.
Qed.

Lemma collapse_length s : forall b, length (collapse_aux b s) <= length s.
Proof.
  induction s as [|c s IH]; intros b; simpl; [lia|].
  destruct (isspace c); [destruct b|]; simpl;
    [specialize (IH true)|specialize (IH true)|specialize (IH false)]; lia.
Qed.

Lemma cleanup_length s : length (cleanup s) <= length s.
Proof.
  unfold cleanup, strip, collapse_ws.
  pose proof (rstrip_length (lstrip (collapse_aux false s))).
  pose proof (lstrip_length (collapse_aux false s)).
  pose proof (collapse_length s false). lia.
Qed.

Lemma squeeze_solid_chars s : forall b, solid (squeeze b s) = solid s.
Proof.
  induction s as [|c s IH]; intros b; [reflexivity|].
  unfold solid in *. destruct (isspace c) eqn:Hc.
  - cbn [filter]. rewrite Hc. cbn [negb]. destruct b.
    + rewrite squeeze_space_run by exact Hc. apply IH.
    + rewrite squeeze_space_new by exact Hc. rewrite <- (IH true).
      destruct (squeeze true s); reflexivity.
  - rewrite squeeze_solid by exact Hc. cbn [filter]. rewrite Hc. cbn [negb].
    rewrite IH. reflexivity.
Qed.

Lemma squeeze_blank s : blank s = true -> squeeze true s = [].
Proof.
  induction s as [|c s IH]; [reflexivity|].
  simpl. intros H. apply andb_true_iff in H as [Hc Hs].
  rewrite squeeze_space_run by exact Hc. apply IH, Hs.
Qed.

Lemma contains_head x w s : contains (x :: w) s = true -> In x s.
Proof.
  induction s as [|c s IH]; intros H.
  - apply contains_nil in H. discriminate.
  - rewrite contains_unfold in H. apply orb_true_iff in H as [H|H].
    + simpl in H. apply andb_true_iff in H as [H _].
      apply Ascii.eqb_eq in H. left. symmetry. exact H.
    + right. apply IH, H.
Qed.

Lemma blank_lower s : blank (lower s) = blank s.
Proof.
  unfold blank, lower. induction s as [|c s IH]; [reflexivity|].
  simpl. rewrite lower_isspace, IH. reflexivity.
Qed.

Lemma blank_no_word s format x w :
  blank s = true -> lower format = x :: w -> isspace x = false ->
  ci_contains format s = false.
Proof.
  intros H Hf Hx. unfold ci_contains. rewrite Hf.
  destruct (contains (x :: w) (lower s)) eqn:E; [|reflexivity].
  apply contains_head in E. rewrite <- blank_lower in H.
  unfold blank in H. rewrite forallb_forall in H.
  rewrite (H x E) in Hx. discriminate.
Qed.

Lemma blank_first_format s : blank s = true -> first_format s = None.
Proof.
  intros H. unfold first_format, work_formats. cbn [List.find].
  rewrite (@blank_no_word s "Hybrid" "h"%char (of_string "ybrid") H eq_refl eq_refl).
  rewrite (@blank_no_word s "Remote" "r"%char (of_string "emote") H eq_refl eq_refl).
  rewrite (@blank_no_word s "In Person" "i"%char (of_string "n person") H eq_refl eq_refl).
  reflexivity.
Qed.

Lemma join_cons_cons sep w v rest :
  join sep (w :: v :: rest) = w ++ sep ++ join sep (v :: rest).
Proof. reflexivity. Qed.

Lemma is_term_nonempty w : is_term w = true -> w <> [].
Proof. intros H ->. discriminate. Qed.

(** What [split] has read so far, joined by spaces, against the
    left-to-right reading of the cleanup. *)
Lemma join_split_aux s : forall cur,
  forallb (fun c => negb (isspace c)) cur = true ->
  join " " (split_aux cur s)
  = match cur with
    | [] => squeeze true s
    | _ :: _ => rev cur ++ squeeze false s
    end.
Proof.
  induction s as [|c s IH]; intros cur Hcur.
  - destruct cur; simpl; [reflexivity|]. rewrite app_nil_r. reflexivity.
  - cbn [split_aux]. destruct (isspace c) eqn:Hc.
    + assert (IH0 : join " " (split_aux [] s) = squeeze true s)
        by exact (IH [] eq_refl).
      pose proof (split_aux_terms s [] eq_refl) as Hterms.
      destruct cur as [|x cur].
      * rewrite squeeze_space_run by exact Hc. exact IH0.
      * rewrite squeeze_space_new by exact Hc.
        destruct (split_aux [] s) as [|w ws] eqn:E.
        -- cbn in IH0. rewrite <- IH0. cbn [join].
           rewrite app_nil_r. reflexivity.
        -- rewrite join_cons_cons, IH0.
           destruct (squeeze true s) as [|y r] eqn:Es; [|reflexivity].
           exfalso. inversion Hterms as [|? ? Hw _]; subst.
           apply is_term_nonempty in Hw.
           destruct w as [|y w]; [contradiction|].
           destruct ws as [|v ws]; [discriminate IH0|].
           rewrite join_cons_cons in IH0. discriminate IH0.
    + assert (Hcur' : forallb (fun c => negb (isspace c)) (c :: cur) = true)
        by (simpl; rewrite Hc; exact Hcur).
      rewrite (IH (c :: cur) Hcur'). rewrite !squeeze_solid by exact Hc.
      destruct cur as [|x cur]; [reflexivity|].
      cbn [rev]. rewrite <- !app_assoc. reflexivity.
Qed.









End DecomposeMore.

(** X1: the work format is always one of "Hybrid", "Remote", "In Person"
    and "Unknown", and it is "Unknown" exactly when the location mentions
    none of the three keywords, in any letter case. *)
Theorem work_format_one_of_four location_string :
  In (fst (split_work_format_and_location location_string))
    [of_string "Hybrid"; of_string "Remote"; of_string "In Person";
     of_string "Unknown"]
  /\ (fst (split_work_format_and_location location_string) = of_string "Unknown"
      <-> ci_contains "Hybrid" location_string = false
          /\ ci_contains "Remote" location_string = false
          /\ ci_contains "In Person" location_string = false).
Proof.
  unfold split_work_format_and_location. rewrite format_loop_find.
  unfold work_formats. cbn [List.find].
  destruct (ci_contains "Hybrid" location_string);
    [|destruct (ci_contains "Remote" location_string);
      [|destruct (ci_contains "In Person" location_string)]];
    cbn [fst]; (split; [simpl; tauto|]);
    split; try discriminate; try (intros (H1 & H2 & H3); discriminate);
    intros _; repeat split.
Qed.

(** X2: whatever the input, the processed location is in cleaned-up form:
    it neither starts nor ends with whitespace, and its only whitespace is
    single spaces between other characters. *)
Theorem processed_location_normalized location_string :
  normalized (snd (split_work_format_and_location location_string)) = true.
Proof.
  destruct (decompose_snd location_string) as (t & -> & _).
  apply cleanup_normalized.
Qed.

(** X3: the cleanup statement, a regular-expression substitution followed
    by [strip], yields the whitespace-separated words of the text joined
    by single spaces. *)
Theorem cleanup_joins_words s : cleanup s = Py.join " " (Py.split s).
Proof.
  rewrite cleanup_squeeze. symmetry.
  apply (join_split_aux s [] eq_refl).
Qed.

(** X4: the processed location is never longer than the raw location. *)
Theorem processed_location_not_longer location_string :
  length (snd (split_work_format_and_location location_string))
  <= length location_string.
Proof.
  destruct (decompose_snd location_string) as (t & -> & Ht & _).
  pose proof (cleanup_length t). lia.
Qed.

(** X5: the cleanup changes whitespace only: the other characters come
    out as they went in, in the same order; so a location that mentions no
    work-format keyword keeps all of them. *)
Theorem cleanup_keeps_solid_characters :
  (forall s, solid (cleanup s) = solid s)
  /\ (forall location_string,
        first_format location_string = None ->
        solid (snd (split_work_format_and_location location_string))
        = solid location_string).
Proof.
  assert (H : forall s, solid (cleanup s) = solid s).
  { intros s. rewrite cleanup_squeeze. apply squeeze_solid_chars. }
  split; [exact H|].
  intros location_string Hf.
  destruct (decompose_snd location_string) as (t & -> & _ & Ht).
  rewrite (Ht Hf). apply H.
Qed.

Lemma cleanup_keeps_solid_characters_witness :
  solid (snd (split_work_format_and_location " New  York ,  NY "))
  = solid " New  York ,  NY ".
Proof.
  apply (proj2 cleanup_keeps_solid_characters (of_string " New  York ,  NY ")).
  reflexivity.
Defined.

(** X6: an empty location, or one of whitespace only, decomposes into the
    work format "Unknown" and the empty processed location. *)
Theorem blank_location_is_unknown location_string :
  blank location_string = true ->
  split_work_format_and_location location_string = (of_string "Unknown", []).
Proof.
  intros H. rewrite (decompose_unselected _ (blank_first_format _ H)).
  rewrite cleanup_squeeze, (squeeze_blank _ H). reflexivity.
Qed.

Lemma blank_location_is_unknown_witness :
  split_work_format_and_location (of_string "  " ++ [line_feed])
  = (of_string "Unknown", []).
Proof.
  apply (blank_location_is_unknown (of_string "  " ++ [line_feed])).
  reflexivity.
Defined.


(** ** The field extractor, continued *)

Section StripFacts.

Import Py.

Lemma lstrip_blank s : blank s = true -> lstrip s = [].
Proof.
  induction s as [|c s IH]; [reflexivity|].
  simpl. intros H. apply andb_true_iff in H as [Hc Hs].
  rewrite Hc. apply IH, Hs.
Qed.

Lemma strip_blank s : blank s = true -> strip s = [].
Proof. intros H. unfold strip. rewrite (lstrip_blank _ H). reflexivity. Qed.

Lemma lstrip_head s c r : lstrip s = c :: r -> isspace c = false.
Proof.
  induction s as [|x s IH]; [discriminate|].
  simpl. destruct (isspace x) eqn:Hx; [exact IH|].
  intros H. injection H as <- _. exact Hx.
Qed.

Lemma rstrip_head s c r : rstrip s = c :: r -> exists s', s = c :: s'.
Proof.
  destruct s as [|x s]; [discriminate|].
  simpl. destruct (rstrip s); [destruct (isspace x)|];
    intros H; try discriminate; injection H as <- _; eexists; reflexivity.
Qed.

Lemma rstrip_last s : forall c r d,
  rstrip s = c :: r -> isspace (last (c :: r) d) = false.
Proof.
  induction s as [|x s IH]; intros c r d H; [discriminate|].
  simpl in H. destruct (rstrip s) as [|y t] eqn:E.
  - destruct (isspace x) eqn:Hx; [discriminate|].
    injection H as <- <-. exact Hx.
  - injection H as <- <-.
    change (last (x :: y :: t) d) with (last (y :: t) d).
    apply (IH y t d eq_refl).
Qed.

Lemma strip_trimmed s : trimmed (strip s) = true.
Proof.
  unfold strip, trimmed. destruct (rstrip (lstrip s)) as [|c r] eqn:E;
    [reflexivity|].
  rewrite (rstrip_last _ c E). destruct (rstrip_head _ E) as [s' Hs].
  rewrite (lstrip_head _ Hs). reflexivity.
Qed.

Lemma lstrip_lower s : lstrip (lower s) = lower (lstrip s).
Proof.
  induction s as [|c s IH]; [reflexivity|].
  cbn [lower map lstrip]. fold (lower s). rewrite lower_isspace.
  destruct (isspace c); [exact IH|reflexivity].
Qed.

Lemma rstrip_lower s : rstrip (lower s) = lower (rstrip s).
Proof.
  induction s as [|c s IH]; [reflexivity|].
  cbn [lower map rstrip]. fold (lower s). rewrite IH, lower_isspace.
  destruct (rstrip s); [destruct (isspace c)|]; reflexivity.
Qed.

Lemma strip_lower s : strip (lower s) = lower (strip s).
Proof. unfold strip. rewrite lstrip_lower, rstrip_lower. reflexivity. Qed.

Lemma rstrip_tail s : exists t, s = rstrip s ++ t /\ blank t = true.
Proof.
  induction s as [|c s (t & Hs & Ht)]; [exists []; split; reflexivity|].
  simpl. destruct (rstrip s) as [|y r] eqn:E.
  - destruct (isspace c) eqn:Hc.
    + exists (c :: s). split; [reflexivity|].
      simpl in Hs. subst t. simpl. rewrite Hc. exact Ht.
    + exists t. simpl in *. subst t. split; [reflexivity|exact Ht].
  - exists t. split; [|exact Ht]. simpl. f_equal. exact Hs.
Qed.

Lemma lstrip_tail s : exists t, s = t ++ lstrip s /\ blank t = true.
Proof.
  induction s as [|c s (t & Hs & Ht)]; [exists []; split; reflexivity|].
  simpl. destruct (isspace c) eqn:Hc.
  - exists (c :: t). split; [simpl; f_equal; exact Hs|].
    simpl. rewrite Hc. exact Ht.
  - exists []. split; reflexivity.
Qed.

Lemma starts_with_extend w : forall a b,
  starts_with w a = true -> starts_with w (a ++ b) = true.
Proof.
  induction w as [|x w IH]; intros [|c a] b H; simpl in *;
    try discriminate; try reflexivity.
  apply andb_true_iff in H as [H1 H2]. rewrite H1. apply IH, H2.
Qed.

Lemma contains_extend w a b :
  contains w a = true -> contains w (a ++ b) = true.
Proof.
  induction a as [|c a IH]; intros H.
  - apply contains_nil in H. subst w. rewrite contains_unfold. reflexivity.
  - rewrite contains_unfold in H. cbn [app]. rewrite contains_unfold.
    apply orb_true_iff in H as [H|H].
    + pose proof (starts_with_extend _ _ b H) as H'. cbn [app] in H'.
      rewrite H'. reflexivity.
    + rewrite (IH H). apply orb_true_r.
Qed.

Lemma contains_after w p t :
  contains w t = true -> contains w (p ++ t) = true.
Proof.
  intros H. induction p as [|c p IH]; [exact H|].
  apply contains_cons, IH.
Qed.

Lemma starts_with_blank w : forall t,
  blank t = true -> starts_with w t = true -> blank w = true.
Proof.
  induction w as [|x w IH]; intros [|c t] Ht H; try reflexivity;
    try discriminate.
  simpl in *. apply andb_true_iff in Ht as [Hc Ht].
  apply andb_true_iff in H as [Hx H]. apply Ascii.eqb_eq in Hx. subst c.
  rewrite Hc. apply (IH t Ht H).
Qed.

Lemma ends_solid_not_blank w : ends_solid w = true -> blank w = false.
Proof.
  unfold ends_solid. destruct (rev w) as [|c r] eqn:E; [discriminate|].
  intros Hc. apply negb_true_iff in Hc.
  destruct (blank w) eqn:B; [|reflexivity].
  unfold blank in B. rewrite forallb_forall in B.
  rewrite (B c) in Hc; [discriminate|].
  apply in_rev. rewrite E. left. reflexivity.
Qed.

Lemma ends_solid_tail x y w :
  ends_solid (x :: y :: w) = true -> ends_solid (y :: w) = true.
Proof.
  unfold ends_solid. cbn [rev].
  destruct (rev w ++ [y]) as [|c r] eqn:E.
  - destruct (rev w); discriminate.
  - intros H. exact H.
Qed.

Lemma starts_with_before_blank w : forall a t,
  blank t = true -> ends_solid w = true ->
  starts_with w (a ++ t) = true -> starts_with w a = true.
Proof.
  induction w as [|x w IH]; intros a t Ht Hw H; [discriminate|].
  destruct a as [|c a].
  - cbn [app] in H. apply (starts_with_blank _ _ Ht) in H.
    rewrite (ends_solid_not_blank _ Hw) in H. discriminate.
  - simpl in H. simpl. apply andb_true_iff in H as [Hx H]. rewrite Hx.
    destruct w as [|y w]; [reflexivity|].
    apply (IH a t Ht (ends_solid_tail _ _ _ Hw) H).
Qed.

Lemma contains_before_blank w t : forall a,
  blank t = true -> ends_solid w = true ->
  contains w (a ++ t) = true -> contains w a = true.
Proof.
  intros a Ht Hw. induction a as [|c a IH]; intros H.
  - simpl in H.
    assert (Hb : forall u, blank u = true -> contains w u = true -> False).
    { clear - Hw. induction u as [|c u IH]; intros Hu Hc.
      - apply contains_nil in Hc. subst w. discriminate.
      - rewrite contains_unfold in Hc. apply orb_true_iff in Hc as [Hc|Hc].
        + apply (starts_with_blank _ _ Hu) in Hc.
          rewrite (ends_solid_not_blank _ Hw) in Hc. discriminate.
        + simpl in Hu. apply andb_true_iff in Hu as [_ Hu].
          apply (IH Hu Hc). }
    destruct (Hb t Ht H).
  - cbn [app] in H. rewrite contains_unfold in H. rewrite contains_unfold.
    apply orb_true_iff in H as [H|H].
    + change (c :: a ++ t) with ((c :: a) ++ t) in H.
      rewrite (starts_with_before_blank _ _ _ Ht Hw H). reflexivity.
    + rewrite (IH H). apply orb_true_r.
Qed.

(** A word that starts and ends with a character other than whitespace is
    found in the stripped text exactly when it is found in the text. *)
Lemma contains_strip x w s :
  isspace x = false -> ends_solid (x :: w) = true ->
  contains (x :: w) (strip s) = contains (x :: w) s.
Proof.
  intros Hx Hw. unfold strip.
  destruct (lstrip_tail s) as (t1 & Hs1 & Ht1).
  destruct (rstrip_tail (lstrip s)) as (t2 & Hs2 & Ht2).
  destruct (contains (x :: w) s) eqn:E.
  - rewrite Hs1 in E.
    assert (E1 : contains (x :: w) (lstrip s) = true).
    { clear - E Ht1 Hx. induction t1 as [|c t1 IH]; [exact E|].
      simpl in Ht1. apply andb_true_iff in Ht1 as [Hc Ht1].
      cbn [app] in E. rewrite contains_unfold in E.
      apply orb_true_iff in E as [E|E]; [|apply (IH Ht1 E)].
      simpl in E. apply andb_true_iff in E as [E _].
      apply Ascii.eqb_eq in E. subst c. rewrite Hc in Hx. discriminate. }
    rewrite Hs2 in E1. apply (contains_before_blank _ _ _ Ht2 Hw E1).
  - destruct (contains (x :: w) (rstrip (lstrip s))) eqn:E2; [|reflexivity].
    apply (contains_extend _ _ t2) in E2. rewrite <- Hs2 in E2.
    apply (contains_after _ t1) in E2. rewrite <- Hs1 in E2. congruence.
Qed.

End StripFacts.

Section ExtractorMore.

Import Py.

Lemma str_eqb_true a b : str_eqb a b = true -> a = b.
Proof. unfold str_eqb. destruct (list_eq_dec ascii_dec a b); congruence. Qed.

Lemma find_split (A : Type) (f : A -> bool) (l : list A) (m : A) :
  List.find f l = Some m ->
  exists pre post, l = pre ++ m :: post /\ f m = true
                   /\ forall x, In x pre -> f x = false.
Proof.
  induction l as [|y l IH]; [discriminate|].
  simpl. destruct (f y) eqn:Ey.
  - intros H. injection H as <-. exists [], l.
    repeat split; [exact Ey|intros x []].
  - intros H. destruct (IH H) as (pre & post & -> & Hm & Hpre).
    exists (y :: pre), post. repeat split; [exact Hm|].
    intros x [<-|Hx]; [exact Ey|apply Hpre, Hx].
Qed.

Lemma first_word a : forall a' b b',
  forallb (fun c => negb (isspace c)) a = true ->
  forallb (fun c => negb (isspace c)) a' = true ->
  a ++ " "%char :: b = a' ++ " "%char :: b' -> a = a'.
Proof.
  induction a as [|x a IH]; intros [|y a'] b b' Ha Ha' H; simpl in *.
  - reflexivity.
  - injection H as <- _. discriminate.
  - injection H as -> _. discriminate.
  - injection H as <- H. apply andb_true_iff in Ha as [_ Ha].
    apply andb_true_iff in Ha' as [_ Ha']. f_equal.
    apply (IH a' b b' Ha Ha' H).
Qed.

Lemma is_term_solid w :
  is_term w = true -> forallb (fun c => negb (isspace c)) w = true.
Proof. unfold is_term. intros H. apply andb_true_iff in H as [_ H]. exact H. Qed.

(** With well-formed class values, whatever carries the two classes of the
    salary container in that order also counts as of class [metadata]. *)
Lemma salary_classes_are_metadata classes :
  forallb is_term classes = true ->
  Soup.class_matches "metadata salary-snippet-container" classes = true ->
  Soup.class_matches "metadata" classes = true.
Proof.
  intros Hok H. unfold Soup.class_matches in *.
  apply orb_true_iff in H as [H|H].
  - apply existsb_exists in H as (c & Hin & Hc). apply str_eqb_true in Hc.
    rewrite forallb_forall in Hok. apply Hok, is_term_solid in Hin.
    subst c. discriminate.
  - apply str_eqb_true in H. destruct classes as [|c1 [|c2 rest]].
    + discriminate.
    + cbn [join] in H. simpl in Hok. apply andb_true_iff in Hok as [Hok _].
      apply is_term_solid in Hok. subst c1. discriminate.
    + rewrite join_cons_cons in H. simpl in Hok.
      apply andb_true_iff in Hok as [Hok _]. apply is_term_solid in Hok.
      assert (E : c1 = of_string "metadata").
      { apply (first_word c1 (of_string "metadata")
                 (join " " (c2 :: rest)) (of_string "salary-snippet-container"));
          [exact Hok|reflexivity|exact H]. }
      subst c1. reflexivity.
Qed.

Lemma salary_matches_metadata n :
  class_tokens_ok n = true ->
  matches sel_salary n = true -> matches sel_metadata n = true.
Proof.
  destruct n as [s|name classes attrs children]; [discriminate|].
  unfold matches, sel_salary, sel_metadata, by_class. cbn [sel_name sel_class sel_attr].
  intros Hok H. rewrite !andb_true_r in *.
  apply andb_true_iff in H as [Hn Hc]. rewrite Hn.
  apply (salary_classes_are_metadata _ Hok Hc).
Qed.

Lemma text_or_na_trimmed sel box : trimmed (text_or_na sel box) = true.
Proof.
  unfold text_or_na. destruct (find sel box); [apply strip_trimmed|reflexivity].
Qed.

Lemma first_date_trimmed l : trimmed (first_date l) = true.
Proof.
  induction l as [|[e|] l IH]; [reflexivity|apply strip_trimmed|exact IH].
Qed.

Lemma extract_job_type_values box :
  In (extract_job_type box)
    [of_string "Full-time"; of_string "Part-time"; Unknown].
Proof.
  unfold extract_job_type. destruct (find sel_metadata box); [|simpl; tauto].
  cbv zeta. destruct (contains _ _); [simpl; tauto|].
  destruct (contains _ _); simpl; tauto.
Qed.

End ExtractorMore.

(** X8: the job type is always "Full-time", "Part-time" or "Unknown".  It
    is read off the text of the first [div] of class [metadata] alone,
    whatever the letter case and the whitespace around that text, and
    "full-time" is looked for first: a text that mentions both gives
    "Full-time". *)
Theorem job_type_reads_first_metadata box :
  In (extract_job_type box)
    [of_string "Full-time"; of_string "Part-time"; Unknown]
  /\ (forall e,
        find sel_metadata box = Some e ->
        extract_job_type box
        = if ci_contains "full-time" (text e) then of_string "Full-time"
          else if ci_contains "part-time" (text e) then of_string "Part-time"
          else Unknown).
Proof.
  split; [apply extract_job_type_values|].
  intros e He. unfold extract_job_type. rewrite He. cbv zeta.
  rewrite <- strip_lower.
  change (of_string "full-time") with ("f"%char :: of_string "ull-time").
  change (of_string "part-time") with ("p"%char :: of_string "art-time").
  rewrite !contains_strip by reflexivity. reflexivity.
Qed.

Lemma job_type_reads_first_metadata_witness :
  extract_job_type
    (Tag "div" [] [] [Tag "div" [of_string "metadata"] []
                        [Text "  PART-TIME or Full-Time "]])
  = of_string "Full-time".
Proof.
  apply (proj2 (job_type_reads_first_metadata
                  (Tag "div" [] [] [Tag "div" [of_string "metadata"] []
                                      [Text "  PART-TIME or Full-Time "]]))
           (Tag "div" [of_string "metadata"] [] [Text "  PART-TIME or Full-Time "])).
  reflexivity.
Defined.

(** X9: in a listing whose class values are well formed, a salary
    container is itself a [div] of class [metadata]: whenever the salary
    lookup finds one, the job-type lookup finds an element too, and that
    element is the salary container or stands before it in the document.
    So the job type of such a listing is never read from a [metadata]
    element that follows the salary container. *)
Theorem salary_container_masks_job_type box e :
  Forall (fun n => class_tokens_ok n = true) (descendants box) ->
  find sel_salary box = Some e ->
  exists m pre post,
    find sel_metadata box = Some m
    /\ descendants box = pre ++ m :: post
    /\ (m = e \/ In e post).
Proof.
  intros Hok He. unfold find in *.
  pose proof (find_some _ _ He) as [Hin Hm].
  rewrite Forall_forall in Hok.
  pose proof (salary_matches_metadata e (Hok e Hin) Hm) as Hmeta.
  destruct (List.find (matches sel_metadata) (descendants box)) as [m|] eqn:E.
  - destruct (find_split _ _ E) as (pre & post & Hl & _ & Hpre).
    exists m, pre, post. split; [reflexivity|]. split; [exact Hl|].
    rewrite Hl in Hin. apply in_app_or in Hin as [Hin|[Hin|Hin]].
    + rewrite (Hpre e Hin) in Hmeta. discriminate.
    + left. exact Hin.
    + right. exact Hin.
  - rewrite (find_none _ _ E e Hin) in Hmeta. discriminate.
Qed.

Lemma salary_container_masks_job_type_witness :
  exists m pre post,
    find sel_metadata sample_box = Some m
    /\ descendants sample_box = pre ++ m :: post
    /\ (m = Tag "div" [of_string "metadata"; of_string "salary-snippet-container"] []
              [Text "$20 an hour"]
        \/ In (Tag "div" [of_string "metadata"; of_string "salary-snippet-container"] []
                 [Text "$20 an hour"]) post).
Proof.
  apply (@salary_container_masks_job_type sample_box
           (Tag "div" [of_string "metadata"; of_string "salary-snippet-container"] []
              [Text "$20 an hour"])).
  - repeat constructor.
  - reflexivity.
Defined.

(** X10: the sentinel marks absence only.  When the element of a text
    field is there but holds nothing except whitespace, the field is the
    empty string, not "N/A"; for the posting date this holds for the first
    candidate even when a later candidate carries a date. *)
Theorem blank_element_gives_empty_field box country r :
  extract_job_data box country = Ok r ->
  (forall e, find sel_title box = Some e -> blank (text e) = true ->
             Job_Title r = [])
  /\ (forall e, find sel_company box = Some e -> blank (text e) = true ->
                Company r = [])
  /\ (forall e, find sel_date box = Some e -> blank (text e) = true ->
                Date_Posted r = [])
  /\ (forall e, find sel_location box = Some e -> blank (text e) = true ->
                Location r = [])
  /\ (forall e, find sel_salary box = Some e -> blank (text e) = true ->
                Salary r = []).
Proof.
  intros H.
  destruct (extract_job_data_fields _ _ H) as (Ht & Hc & Hd & Hl & Hs & _).
  rewrite Ht, Hc, Hd, Hl, Hs. unfold text_or_na, extract_date_posted.
  conjuncts; intros e -> Hb; cbn [first_date]; apply strip_blank, Hb.
Qed.

Lemma blank_element_gives_empty_field_witness :
  extract_date_posted blank_date_box = [].
Proof.
  pose proof (@blank_element_gives_empty_field blank_date_box
                "https://www.indeed.com"
                {| Link := "https://www.indeed.com/rc/clk?jk=3";
                   Job_Title := "Cook"; Company := NA;
                   Date_Posted := extract_date_posted blank_date_box;
                   Location := NA; Salary := NA; Job_Type := Unknown |}
                eq_refl) as (_ & _ & Hd & _).
  apply (Hd (Tag "span" [of_string "date"] [] [Text "  "])); reflexivity.
Defined.

(** X11: no field of a returned record starts or ends with whitespace:
    the texts are stripped and the sentinels have none. *)
Theorem returned_fields_are_trimmed box country r :
  extract_job_data box country = Ok r ->
  trimmed (Job_Title r) = true
  /\ trimmed (Company r) = true
  /\ trimmed (Date_Posted r) = true
  /\ trimmed (Location r) = true
  /\ trimmed (Salary r) = true
  /\ trimmed (Job_Type r) = true.
Proof.
  intros H.
  destruct (extract_job_data_fields _ _ H) as (Ht & Hc & Hd & Hl & Hs & Hj).
  rewrite Ht, Hc, Hd, Hl, Hs, Hj.
  conjuncts; try apply text_or_na_trimmed.
  - apply first_date_trimmed.
  - destruct (extract_job_type_values box) as [<-|[<-|[<-|[]]]]; reflexivity.
Qed.

Lemma returned_fields_are_trimmed_witness :
  trimmed (of_string "Senior Cook") = true
  /\ trimmed (of_string "Acme") = true
  /\ trimmed (of_string "Posted 3 days ago") = true
  /\ trimmed (of_string "Remote in Austin, TX") = true
  /\ trimmed (of_string "$20 an hour") = true
  /\ trimmed (of_string "Unknown") = true.
Proof.
  apply (@returned_fields_are_trimmed sample_box "https://www.indeed.com"
           {| Link := "https://www.indeed.com/rc/clk?jk=1";
              Job_Title := "Senior Cook"; Company := "Acme";
              Date_Posted := "Posted 3 days ago";
              Location := "Remote in Austin, TX";
              Salary := "$20 an hour"; Job_Type := "Unknown" |}).
  reflexivity.
Defined.

(** ** The harvest loop, continued *)

Lemma extract_boxes_rows boxes country : forall df n df' n',
  extract_boxes boxes country df n = Ok (df', n')
  <-> exists rows,
        Forall2 (fun box row => extract_job_data box country = Ok row) boxes rows
        /\ df' = df ++ rows
        /\ n' = (n + Z.of_nat (length boxes))%Z.
Proof.
  induction boxes as [|box boxes IH]; intros df n df' n'.
  - simpl. split.
    + intros H. injection H as <- <-. exists [].
      split; [constructor|]. split; [symmetry; apply app_nil_r|lia].
    + intros (rows & Hr & -> & ->). inversion Hr; subst.
      rewrite app_nil_r, Z.add_0_r. reflexivity.
  - cbn [extract_boxes]. split.
    + destruct (extract_job_data box country) as [row|] eqn:E; [|discriminate].
      intros H. apply IH in H as (rows & Hr & -> & ->).
      exists (row :: rows). split; [constructor; assumption|].
      rewrite <- app_assoc. split; [reflexivity|].
      cbn [length]. lia.
    + intros (rows & Hr & -> & ->). inversion Hr as [|? row ? rows' Hrow Hrest]; subst.
      rewrite Hrow. apply IH. exists rows'. split; [exact Hrest|].
      rewrite <- app_assoc. split; [reflexivity|]. cbn [length]. lia.
Qed.

Lemma extract_boxes_raises boxes country box e0 :
  In box boxes -> extract_job_data box country = Raise e0 ->
  forall df n, exists e, extract_boxes boxes country df n = Raise e.
Proof.
  intros Hin Hbox. induction boxes as [|b boxes IH]; [destruct Hin|].
  intros df n. cbn [extract_boxes].
  destruct (extract_job_data b country) as [row|e] eqn:E;
    [|exists e; reflexivity].
  destruct Hin as [->|Hin]; [congruence|]. apply (IH Hin).
Qed.


(** X12: the listings of a page become rows in document order, one row
    per listing, appended behind the rows already gathered, and the count
    goes up by the number of listings; the page is taken whole or not at
    all. *)
Theorem rows_follow_listings boxes country df n df' n' :
  extract_boxes boxes country df n = Ok (df', n')
  <-> exists rows,
        Forall2 (fun box row => extract_job_data box country = Ok row) boxes rows
        /\ df' = df ++ rows
        /\ n' = (n + Z.of_nat (length boxes))%Z.
Proof. apply extract_boxes_rows. Qed.

Section HarvestMore.

Context {driver : Type} {browser : Browser driver}.

Variables country total_jobs : str.


(** X14: one listing the extractor cannot read ends the whole run with an
    exception: when a page on which the wait succeeded holds a listing on
    which the extractor raises, the loop raises, whatever rows it had
    gathered before. *)
Theorem malformed_listing_aborts_run fuel (d : driver) df n box e0 :
  fst (wait_for_listings (seq 0 max_retries) d) = true ->
  In box (boxes_of (snd (wait_for_listings (seq 0 max_retries) d))) ->
  extract_job_data box country = Raise e0 ->
  exists e, scrape_loop (S fuel) d country total_jobs df n = Some (Raise e).
Proof.
  intros Hw Hin Hbox. rewrite scrape_loop_step, Hw. cbn [negb]. cbv zeta.
  destruct (extract_boxes_raises _ _ _ Hin Hbox df n) as [e He].
  rewrite He. exists e. reflexivity.
Qed.

Lemma wait_after_one_timeout (d : driver) :
  fst (wait_job_beacon d) = false ->
  fst (wait_job_beacon (reloaded d)) = true ->
  wait_for_listings (seq 0 max_retries) d
  = wait_for_listings (seq 0 max_retries) (reloaded d).
Proof.
  unfold reloaded. intros H1 H2.
  cbn [seq max_retries wait_for_listings].
  destruct (wait_job_beacon d) as [f1 d1]. cbn [fst snd] in *. subst f1.
  cbn [Nat.eqb Nat.sub].
  destruct (wait_job_beacon (refresh d1)) as [f2 d2]. cbn [fst snd] in *.
  subst f2. reflexivity.
Qed.

Lemma scrape_loop_same_wait fuel (d d' : driver) df n :
  wait_for_listings (seq 0 max_retries) d
  = wait_for_listings (seq 0 max_retries) d' ->
  scrape_loop fuel d country total_jobs df n
  = scrape_loop fuel d' country total_jobs df n.
Proof.
  intros H. destruct fuel as [|fuel]; [reflexivity|].
  rewrite !scrape_loop_step, H. reflexivity.
Qed.

(** X15: a timeout that the retry makes good leaves no trace in the
    result: when the wait fails once, or twice, and succeeds after the
    reload, the loop returns what it returns when started on the reloaded
    page. *)
Theorem recovered_timeout_is_invisible fuel (d : driver) df n :
  (fst (wait_job_beacon d) = false ->
   fst (wait_job_beacon (reloaded d)) = true ->
   scrape_loop fuel d country total_jobs df n
   = scrape_loop fuel (reloaded d) country total_jobs df n)
  /\ (fst (wait_job_beacon d) = false ->
      fst (wait_job_beacon (reloaded d)) = false ->
      fst (wait_job_beacon (reloaded (reloaded d))) = true ->
      scrape_loop fuel d country total_jobs df n
      = scrape_loop fuel (reloaded (reloaded d)) country total_jobs df n).
Proof.
  split.
  - intros H1 H2. apply scrape_loop_same_wait, wait_after_one_timeout;
      assumption.
  - intros H1 H2 H3. apply scrape_loop_same_wait.
    unfold reloaded in *. cbn [seq max_retries wait_for_listings].
    destruct (wait_job_beacon d) as [f1 d1]. cbn [fst snd] in *. subst f1.
    cbn [Nat.eqb Nat.sub].
    destruct (wait_job_beacon (refresh d1)) as [f2 d2]. cbn [fst snd] in *.
    subst f2. cbn [Nat.eqb Nat.sub].
    destruct (wait_job_beacon (refresh d2)) as [f3 d3]. cbn [fst snd] in *.
    subst f3. reflexivity.
Qed.

End HarvestMore.


Lemma malformed_listing_aborts_run_witness :
  exists e,
    scrape_loop 1 broken_page_session "https://www.indeed.com" Unknown
      [bare_row] 1
    = Some (Raise e).
Proof.
  apply (@malformed_listing_aborts_run session scripted
           "https://www.indeed.com" Unknown 0 broken_page_session
           [bare_row] 1%Z no_anchor_box AttributeError).
  - reflexivity.
  - right. left. reflexivity.
  - reflexivity.
Defined.

Lemma recovered_timeout_is_invisible_witness :
  scrape_loop 2 (session_of true None 1 [results_page [sample_box]])
    "https://www.indeed.com" Unknown [] 0
  = scrape_loop 2 (reloaded (session_of true None 1 [results_page [sample_box]]))
      "https://www.indeed.com" Unknown [] 0.
Proof.
  apply (proj1 (@recovered_timeout_is_invisible session scripted
                  "https://www.indeed.com" Unknown 2
                  (session_of true None 1 [results_page [sample_box]]) [] 0%Z));
    reflexivity.
Defined.

(** ** The search, continued *)

Section CountToken.

Import Py.










Lemma no_space_app a b : no_space (a ++ b) = no_space a && no_space b.
Proof. apply forallb_app. Qed.

Lemma join_terms_no_space sep l :
  no_space sep = true -> Forall (fun w => is_term w = true) l ->
  no_space (join sep l) = true.
Proof.
  intros Hsep Hl. induction Hl as [|w l Hw _ IH]; [reflexivity|].
  unfold is_term in Hw. apply andb_true_iff in Hw as [_ Hw].
  destruct l as [|v l]; [exact Hw|].
  change (join sep (w :: v :: l)) with (w ++ sep ++ join sep (v :: l)).
  rewrite !no_space_app. unfold no_space at 1. rewrite Hw, Hsep, IH.
  reflexivity.
Qed.

Lemma uint_no_space d :
  no_space (of_string (NilEmpty.string_of_uint d)) = true.
Proof. induction d; simpl; try exact IHd; reflexivity. Qed.

Lemma str_of_int_no_space n : no_space (str_of_int n) = true.
Proof.
  unfold str_of_int, NilZero.string_of_int.
  destruct (Z.to_int n) as [d|d]; unfold NilZero.string_of_uint.
  - destruct d; try apply uint_no_space; reflexivity.
  - change (of_string (String "-" ?s)) with ("-"%char :: of_string s).
    destruct d;
      try (change (no_space ("-"%char :: of_string ?s))
             with (no_space (of_string s)); apply uint_no_space);
      reflexivity.
Qed.

End CountToken.



(** X17: the search URL has no whitespace of its own making: the query
    terms are joined without any, and the number of days is printed
    without any; the base URL and the location are put in as they are, so
    the URL is free of whitespace exactly when those two are. *)
Theorem search_url_whitespace country job_position job_location days_since :
  no_space (full_url country job_position job_location days_since)
  = no_space country && no_space job_location.
Proof.
  unfold full_url. rewrite !no_space_app.
  rewrite (@join_terms_no_space "+" (Py.split job_position) eq_refl
             (split_aux_terms job_position [] eq_refl)).
  rewrite str_of_int_no_space.
  change (no_space (of_string "/jobs?q=")) with true.
  change (no_space (of_string "&l=")) with true.
  change (no_space (of_string "&fromage=")) with true.
  cbn [andb]. rewrite !andb_true_r. reflexivity.
Qed.

(** ** The pipeline *)



Section PipelineFacts.

Context {driver : Type} {browser : Browser driver} {services : Services driver}.

Lemma deliver_shape df :
  exists tail,
    deliver df
    = Upload (identify_it_jobs (process_locations df)) bucket_name blob_name :: tail
    /\ ~ In Quit tail
    /\ (forall rows b k, ~ In (Upload rows b k) tail)
    /\ (upload_to_gcs (identify_it_jobs (process_locations df))
          bucket_name blob_name = false -> tail = [])
    /\ (In Completed tail
        <-> upload_to_gcs (identify_it_jobs (process_locations df))
              bucket_name blob_name = true
            /\ basic_data_analysis (identify_it_jobs (process_locations df))
               = true)
    /\ (forall b k p ds t, In (Load b k p ds t) tail ->
        b = bucket_name /\ k = blob_name
        /\ upload_to_gcs (identify_it_jobs (process_locations df))
             bucket_name blob_name = true).
Proof.
  unfold deliver. cbv zeta.
  set (rows := identify_it_jobs (process_locations df)).
  eexists. split; [reflexivity|].
  destruct (upload_to_gcs rows bucket_name blob_name);
    destruct (load_to_bigquery bucket_name blob_name project_id dataset_id table_id);
    destruct (basic_data_analysis rows); cbn [app In];
    (split; [intuition discriminate|]);
    (split; [intros; intuition discriminate|]);
    (split; [intros; try discriminate; reflexivity|]);
    (split; [intuition discriminate|]);
    intros b k p ds t Hin;
    repeat match goal with
           | H : _ \/ _ |- _ => destruct H as [H|H]
           | H : False |- _ => destruct H
           | H : Load _ _ _ _ _ = Load _ _ _ _ _ |- _ =>
               injection H as <- <- <- <- <-
           end;
    try discriminate; repeat split; reflexivity.
Qed.



(** X21: the closing message of [main] is reached exactly when the upload
    went through and the analysis did not raise: whether the warehouse
    load succeeded plays no part. *)
Theorem completion_ignores_load fuel trace :
  main fuel = Some trace ->
  (In Completed trace
   <-> exists rows b k,
         In (Upload rows b k) trace
         /\ upload_to_gcs rows b k = true
         /\ basic_data_analysis rows = true).
Proof.
  unfold main. destruct configure_webdriver as [d|];
    [|intros H; injection H as <-; split;
      [intros []|intros (? & ? & ? & [] & _)]].
  cbv zeta.
  destruct (fst (search_jobs d _ _ _ _)) as [[url total_jobs]|e];
    [|intros H; injection H as <-; split;
      [intros [H|[]]; discriminate
      |intros (? & ? & ? & [H|[]] & _); discriminate]].
  destruct (scrape_job_data fuel _ _ total_jobs) as [[[|row rows]|e]|];
    try discriminate;
    try (intros H; injection H as <-; split;
         [intros [H|[]]; discriminate
         |intros (? & ? & ? & [H|[]] & _); discriminate]).
  destruct (deliver_shape (row :: rows)) as (tail & Hd & Hq & Hu & _ & Hc & _).
  rewrite Hd. intros H. injection H as <-. cbn [app].
  split.
  - intros [Hin|Hin]; [discriminate|].
    apply in_app_or in Hin as [Hin|[Hin|[]]]; [|discriminate].
    apply Hc in Hin as [Hup Han].
    exists (identify_it_jobs (process_locations (row :: rows))),
      bucket_name, blob_name.
    split; [left; reflexivity|]. split; assumption.
  - intros (rs & b & k & [Hin|Hin] & Hup & Han).
    + injection Hin as <- <- <-. right. apply in_or_app. left.
      apply Hc. split; assumption.
    + apply in_app_or in Hin as [Hin|[Hin|[]]];
        [destruct (Hu _ _ _ Hin)|discriminate].
Qed.

End PipelineFacts.



Lemma completion_ignores_load_witness :
  exists trace,
    @main paged three_page_site three_page_services 5 = Some trace
    /\ In Completed trace
    /\ @load_to_bigquery paged three_page_services
         (@bucket_name paged three_page_services) blob_name
         (@project_id paged three_page_services)
         (@dataset_id paged three_page_services) table_id
       = false.
Proof.
  destruct (@main paged three_page_site three_page_services 5)
    as [trace|] eqn:E.
  - exists trace. split; [reflexivity|]. split; [|reflexivity].
    apply (proj2 (@completion_ignores_load paged three_page_site
                    three_page_services 5 trace E)).
    vm_compute in E. injection E as <-.
    eexists _, _, _. split; [left; reflexivity|]. split; reflexivity.
  - vm_compute in E. discriminate.
Defined.
